(** * backendScaleway: the /api gateway of server.js, embedded in Rocq

    The file follows server.js top down: JavaScript strings and values, the
    two pure helpers [escapeXml] and [buildSSML], the Express response
    object, the upstream collaborators (OpenAI SDK, Vertex AI, axios, pg),
    and then the [/api/:service] router with one definition per branch.
    The routes [/api/transcribe] and [/get-azure-token] and the helper
    [streamAssistant], which no route calls, are not part of it.

    Conventions of the embedding.
    - A JavaScript string is a [string] holding its UTF-8 bytes.  The five
      characters [escapeXml] rewrites, the separators of the SSE frames and
      every key of the static tables but one are ASCII, so byte-wise and
      code-unit-wise processing agree on them.
    - [console.log] / [console.error] calls write to the process log only
      and are left out.
    - Every [await] is sequential inside one request, so a handler is a
      function of the state of its response object and of the answers of
      the upstream services, which are given by an oracle.
    - A stream is a finite list of items followed by its end or by an
      error; the only loop that may run forever is the poll loop, which
      takes fuel. *)

From Stdlib Require Import String Ascii List ZArith Lia Bool Arith.
From Stdlib Require Import DecimalString.
Import ListNotations.
Open Scope string_scope.

Set Implicit Arguments.
Set Warnings "-register-all".

(* ===================================================================== *)
(** ** JavaScript strings *)
(* ===================================================================== *)

(** Characters that cannot be typed inside a literal. *)
Definition dq : string := String "034"%char EmptyString.   (* double quote *)
Definition nl : string := String "010"%char EmptyString.   (* line feed *)
Definition bs : string := String "092"%char EmptyString.   (* backslash *)

Fixpoint join (sep : string) (l : list string) : string :=
  match l with
  | [] => EmptyString
  | [x] => x
  | x :: rest => x ++ sep ++ join sep rest
  end.

(** White space as [String.prototype.trim] sees it, restricted to the
    one-byte characters TAB, LF, VT, FF, CR and SPACE. *)
Definition is_space (c : ascii) : bool :=
  let n := nat_of_ascii c in
  ((9 <=? n)%nat && (n <=? 13)%nat) || (n =? 32)%nat.

Fixpoint trimStart (s : string) : string :=
  match s with
  | EmptyString => EmptyString
  | String c r => if is_space c then trimStart r else s
  end.

Fixpoint trimEnd (s : string) : string :=
  match s with
  | EmptyString => EmptyString
  | String c r =>
      match trimEnd r with
      | EmptyString => if is_space c then EmptyString else String c EmptyString
      | r' => String c r'
      end
  end.

Definition trim (s : string) : string := trimEnd (trimStart s).

Definition lower_ascii (c : ascii) : ascii :=
  let n := nat_of_ascii c in
  if (65 <=? n)%nat && (n <=? 90)%nat then ascii_of_nat (n + 32) else c.

Definition upper_ascii (c : ascii) : ascii :=
  let n := nat_of_ascii c in
  if (97 <=? n)%nat && (n <=? 122)%nat then ascii_of_nat (n - 32) else c.

(** U+00C0..U+00DE without U+00D7, as the second byte after 0xC3. *)
Definition latin1_upper (c : ascii) : bool :=
  let n := nat_of_ascii c in
  (128 <=? n)%nat && (n <=? 158)%nat && negb (n =? 151)%nat.

(** [toLowerCase]: the ASCII letters and the Latin-1 capitals (two bytes
    in UTF-8, lead byte 0xC3), which covers the accented key of the voice
    tables.  Letters of other scripts are left as they are. *)
Fixpoint toLowerCase (s : string) : string :=
  match s with
  | EmptyString => EmptyString
  | String c1 t =>
      match t with
      | String c2 r =>
          if (nat_of_ascii c1 =? 195)%nat && latin1_upper c2
          then String c1 (String (ascii_of_nat (nat_of_ascii c2 + 32)) (toLowerCase r))
          else String (lower_ascii c1) (toLowerCase t)
      | EmptyString => String (lower_ascii c1) EmptyString
      end
  end.

(** [toUpperCase], on the ASCII letters. *)
Fixpoint toUpperCase (s : string) : string :=
  match s with
  | EmptyString => EmptyString
  | String c r => String (upper_ascii c) (toUpperCase r)
  end.

(** [s.replace(/c/g, by_)] for a one-character pattern [c]. *)
Fixpoint replaceAll (c : ascii) (by_ : string) (s : string) : string :=
  match s with
  | EmptyString => EmptyString
  | String a r =>
      if Ascii.eqb a c then by_ ++ replaceAll c by_ r
      else String a (replaceAll c by_ r)
  end.

Definition string_of_Z (z : Z) : string := NilZero.string_of_int (Z.to_int z).

Definition hex_digit (n : nat) : string :=
  String (ascii_of_nat (if (n <? 10)%nat then 48 + n else 87 + n)) EmptyString.

(** The escape [JSON.stringify] emits for one character of a string. *)
Definition json_escape_char (c : ascii) : string :=
  let n := nat_of_ascii c in
  if (n =? 34)%nat then bs ++ dq
  else if (n =? 92)%nat then bs ++ bs
  else if (n =? 8)%nat then bs ++ "b"
  else if (n =? 9)%nat then bs ++ "t"
  else if (n =? 10)%nat then bs ++ "n"
  else if (n =? 12)%nat then bs ++ "f"
  else if (n =? 13)%nat then bs ++ "r"
  else if (n <? 32)%nat then bs ++ "u00" ++ hex_digit (n / 16) ++ hex_digit (n mod 16)
  else String c EmptyString.

Fixpoint json_escape (s : string) : string :=
  match s with
  | EmptyString => EmptyString
  | String c r => json_escape_char c ++ json_escape r
  end.

Definition json_quote (s : string) : string := dq ++ json_escape s ++ dq.

(* ===================================================================== *)
(** ** JavaScript values *)
(* ===================================================================== *)

(** The values a handler meets: JSON data of the request body and of the
    SDK answers, [Buffer]s of binary answers, and the members every object
    literal inherits from [Object.prototype] ([JBuiltin]). A number is an
    integer ([JNum]) or a non-integral number given by its decimal text
    ([JFrac], never zero); the handlers only test numbers for truthiness,
    print them or pass them on. *)
Inductive JsValue : Type :=
| JUndefined
| JNull
| JBool (b : bool)
| JNum (z : Z)
| JFrac (decimal : string)
| JStr (s : string)
| JArr (items : list JsValue)
| JObj (fields : list (string * JsValue))
| JBuffer (bytes : string)
| JBuiltin (name : string).

Definition truthy (v : JsValue) : bool :=
  match v with
  | JUndefined | JNull => false
  | JBool b => b
  | JNum z => negb (z =? 0)%Z
  | JStr s => negb (s =? "")
  | JFrac _ | JArr _ | JObj _ | JBuffer _ | JBuiltin _ => true
  end.

Definition nullish (v : JsValue) : bool :=
  match v with JUndefined | JNull => true | _ => false end.

(** [a || b] *)
Definition js_or (a b : JsValue) : JsValue := if truthy a then a else b.

(** [String(v)], the conversion a template literal applies. *)
Fixpoint ToString (v : JsValue) : string :=
  match v with
  | JUndefined => "undefined"
  | JNull => "null"
  | JBool true => "true"
  | JBool false => "false"
  | JNum z => string_of_Z z
  | JFrac d => d
  | JStr s => s
  | JArr items =>
      join "," (map (fun x => match x with
                              | JUndefined | JNull => EmptyString
                              | _ => ToString x
                              end) items)
  | JObj _ => "[object Object]"
  | JBuffer b => b
  | JBuiltin name =>
      if name =? "__proto__" then "[object Object]"
      else "function " ++ (if name =? "constructor" then "Object" else name)
           ++ "() { [native code] }"
  end.

Fixpoint assoc {A : Type} (k : string) (l : list (string * A)) : option A :=
  match l with
  | [] => None
  | (k', v) :: rest => if k' =? k then Some v else assoc k rest
  end.

(** [JSON.stringify(v)]; [None] is the [undefined] it returns for
    [undefined] and for functions. *)
Fixpoint JSON_stringify (v : JsValue) : option string :=
  match v with
  | JUndefined => None
  | JNull => Some "null"
  | JBool true => Some "true"
  | JBool false => Some "false"
  | JNum z => Some (string_of_Z z)
  | JFrac d => Some d
  | JStr s => Some (json_quote s)
  | JArr items =>
      Some ("[" ++ join "," (map (fun x => match JSON_stringify x with
                                          | Some t => t
                                          | None => "null"
                                          end) items) ++ "]")
  | JObj fields =>
      Some ("{" ++ join "," (flat_map (fun kv =>
                     match kv with
                     | (k, x) => match JSON_stringify x with
                                 | Some t => [json_quote k ++ ":" ++ t]
                                 | None => []
                                 end
                     end) fields) ++ "}")
  | JBuffer b =>
      Some ("{" ++ json_quote "type" ++ ":" ++ json_quote "Buffer" ++ ","
                ++ json_quote "data" ++ ":["
                ++ join "," (map (fun c => string_of_Z (Z.of_nat (nat_of_ascii c)))
                                 (list_ascii_of_string b)) ++ "]}")
  | JBuiltin name => if name =? "__proto__" then Some "{}" else None
  end.

(** [`${JSON.stringify(v)}`] *)
Definition stringified (v : JsValue) : string :=
  match JSON_stringify v with Some s => s | None => "undefined" end.

(** [v?.k] on data: the own property [k] of a plain object. *)
Definition get (v : JsValue) (k : string) : JsValue :=
  match v with
  | JObj fields => match assoc k fields with Some x => x | None => JUndefined end
  | _ => JUndefined
  end.

(** [v?.[i]] on data: element [i] of an array, character [i] of a
    string. *)
Definition at_ (v : JsValue) (i : nat) : JsValue :=
  match v with
  | JArr items => nth i items JUndefined
  | JStr s => match String.get i s with
              | Some c => JStr (String c EmptyString)
              | None => JUndefined
              end
  | _ => JUndefined
  end.

(** The members of [Object.prototype], which [o[k]] finds on every object
    literal when [k] is not an own key. *)
Definition object_prototype_names : list string :=
  [ "constructor"; "__proto__"; "hasOwnProperty"; "isPrototypeOf";
    "propertyIsEnumerable"; "toLocaleString"; "toString"; "valueOf";
    "__defineGetter__"; "__defineSetter__"; "__lookupGetter__";
    "__lookupSetter__" ].

Definition includes (l : list string) (s : string) : bool :=
  existsb (String.eqb s) l.

(** [table[k]] for an object literal [table] with string values and a
    key [k] computed at run time. *)
Definition lookup (table : list (string * string)) (k : string) : JsValue :=
  match assoc k table with
  | Some v => JStr v
  | None => if includes object_prototype_names k then JBuiltin k else JUndefined
  end.

(* ===================================================================== *)
(** ** Exceptions *)
(* ===================================================================== *)

(** [err.response] of an axios error: the upstream answered with a
    non-2xx status. *)
Record HttpErrorResponse : Type := {
  r_status : Z;
  r_headers : list (string * string);
  r_data : JsValue
}.

Record JsError : Type := {
  e_name : string;
  e_message : string;
  e_response : option HttpErrorResponse
}.

Definition TypeError (msg : string) : JsError :=
  {| e_name := "TypeError"; e_message := msg; e_response := None |}.

Definition ReferenceError (msg : string) : JsError :=
  {| e_name := "ReferenceError"; e_message := msg; e_response := None |}.

(** A pure computation that may throw. *)
Inductive Result (A : Type) : Type :=
| Ok (a : A)
| Err (e : JsError).
Arguments Ok {A} a.
Arguments Err {A} e.

(** [v.trim()]: only strings have the method. *)
Definition trim_of (v : JsValue) : Result string :=
  match v with
  | JStr s => Ok (trim s)
  | JUndefined | JNull => Err (TypeError "Cannot read properties of undefined (reading 'trim')")
  | _ => Err (TypeError "trim is not a function")
  end.

(* ===================================================================== *)
(** ** escapeXml and buildSSML (server.js 75-112) *)
(* ===================================================================== *)

Definition escapeXml (unsafe : string) : string :=
  replaceAll "039"%char "&apos;"
    (replaceAll "034"%char "&quot;"
      (replaceAll ">"%char "&gt;"
        (replaceAll "<"%char "&lt;"
          (replaceAll "&"%char "&amp;" unsafe)))).

(** [escapeXml(text)] on an arbitrary value: [unsafe.replace] exists on
    strings only. *)
Definition escapeXml_of (unsafe : JsValue) : Result string :=
  match unsafe with
  | JStr s => Ok (escapeXml s)
  | JUndefined | JNull => Err (TypeError "Cannot read properties of undefined (reading 'replace')")
  | _ => Err (TypeError "unsafe.replace is not a function")
  end.

(** [voice.substring(0, 5)] *)
Definition substring_of (v : JsValue) : Result string :=
  match v with
  | JStr s => Ok (substring 0 5 s)
  | JUndefined | JNull => Err (TypeError "Cannot read properties of undefined (reading 'substring')")
  | _ => Err (TypeError "voice.substring is not a function")
  end.

Record SSMLParams : Type := {
  text : JsValue;
  voice : JsValue;
  style : JsValue;
  styleDegree : JsValue;
  rate : JsValue;
  pitch : JsValue;
  volume : JsValue;
  leadingSilenceMs : JsValue;
  trailingSilenceMs : JsValue
}.

(** A default parameter value applies when the argument is [undefined]. *)
Definition default_to (d v : JsValue) : JsValue :=
  match v with JUndefined => d | _ => v end.

(** [[a, b, c].filter(Boolean).join(" ")] *)
Definition filter_join (l : list JsValue) : string :=
  join " " (map ToString (filter truthy l)).

Definition prosodyAttrs (p : SSMLParams) : string :=
  filter_join
    [ if truthy (rate p) then JStr ("rate=" ++ dq ++ ToString (rate p) ++ dq) else JNull;
      if truthy (pitch p) then JStr ("pitch=" ++ dq ++ ToString (pitch p) ++ dq) else JNull;
      if truthy (volume p) then JStr ("volume=" ++ dq ++ ToString (volume p) ++ dq) else JNull ].

Definition openProsody (p : SSMLParams) : string :=
  if negb (prosodyAttrs p =? "") then "<prosody " ++ prosodyAttrs p ++ ">" else "".

Definition closeProsody (p : SSMLParams) : string :=
  if negb (prosodyAttrs p =? "") then "</prosody>" else "".

Definition expressOpen (p : SSMLParams) : string :=
  if truthy (style p)
  then "<mstts:express-as style=" ++ dq ++ ToString (style p) ++ dq
       ++ (if truthy (styleDegree p)
           then " styledegree=" ++ dq ++ ToString (styleDegree p) ++ dq
           else "")
       ++ ">"
  else "".

Definition expressClose (p : SSMLParams) : string :=
  if truthy (style p) then "</mstts:express-as>" else "".

Definition ns : string :=
  "xmlns:mstts=" ++ dq ++ "https://www.w3.org/2001/mstts" ++ dq.

(** The template of [buildSSML] after its first line break and up to the
    escaped text ... *)
Definition ssml_head (p : SSMLParams) (locale : string) : string :=
  "<speak version=" ++ dq ++ "1.0" ++ dq ++ " " ++ ns
     ++ " xml:lang=" ++ dq ++ locale ++ dq ++ ">" ++ nl
  ++ "  <voice name=" ++ dq ++ ToString (voice p) ++ dq ++ ">" ++ nl
  ++ "    <mstts:silence type=" ++ dq ++ "Leading" ++ dq ++ " value=" ++ dq
     ++ ToString (default_to (JNum 0) (leadingSilenceMs p)) ++ "ms" ++ dq ++ "/>" ++ nl
  ++ "    <mstts:silence type=" ++ dq ++ "Tailing" ++ dq ++ " value=" ++ dq
     ++ ToString (default_to (JNum 0) (trailingSilenceMs p)) ++ "ms" ++ dq ++ "/>" ++ nl
  ++ "    " ++ expressOpen p ++ nl
  ++ "      " ++ openProsody p ++ nl
  ++ "        ".

(** ... and after it. *)
Definition ssml_tail (p : SSMLParams) : string :=
  nl
  ++ "      " ++ closeProsody p ++ nl
  ++ "    " ++ expressClose p ++ nl
  ++ "  </voice>" ++ nl
  ++ "</speak>".

Definition buildSSML (p : SSMLParams) : Result string :=
  match substring_of (voice p) with
  | Err e => Err e
  | Ok locale =>
      match escapeXml_of (text p) with
      | Err e => Err e
      | Ok escaped => Ok (trim (nl ++ ssml_head p locale ++ escaped ++ ssml_tail p))
      end
  end.

(* ===================================================================== *)
(** ** The Express response object *)
(* ===================================================================== *)

(** What reaches the client: a string passed to [res.write], the object
    passed to [res.json] (sent as its JSON text), or bytes passed to
    [res.send] / written by a raw relay. *)
Inductive Chunk : Type :=
| Text (s : string)
| Json (v : JsValue)
| Raw (v : JsValue).

Record Response : Type := {
  statusCode : Z;
  headers : list (string * string);     (* most recent first *)
  headersSent : bool;
  written : list Chunk;                 (* in the order of the calls *)
  ended : nat                           (* how many times the sink was closed *)
}.

Definition fresh_response : Response :=
  {| statusCode := 200; headers := []; headersSent := false; written := []; ended := 0 |}.

(* ===================================================================== *)
(** ** Upstream collaborators *)
(* ===================================================================== *)

(** One constructor per call the router makes; the arguments are the
    parts of the call that depend on the request. *)
Inductive UpCall : Type :=
| AxiosPost (url : string) (data : JsValue) (hdrs : list (string * JsValue)) (responseType : string)
| VertexGenerateContent (prompt : string)
| VertexGenerateContentStream (prompt : string)
| ChatCompletionsCreate (model messages : JsValue)
| ThreadsCreate (messages : JsValue)
| ThreadsMessagesCreate (threadId msg : JsValue)
| ThreadsMessagesList (threadId : JsValue)
| ThreadsRunsCreate (threadId assistantId : JsValue)
| ThreadsRunsRetrieve (threadId runId : JsValue)
| ThreadsRunsCreateAndStream (threadId assistantId : JsValue)
| AudioSpeechCreate (model : string) (input : JsValue) (voice_ : string) (instructions : string)
| PoolQuery (sql : string) (params : list JsValue).

(** What a handler does besides writing to the response, in order. *)
Inductive Effect : Type :=
| Up (c : UpCall)
| Sleep (ms : Z).

(** A fulfilled promise: a plain value, or an object carrying a stream of
    items that ends normally ([None]) or by throwing: the SDK [Stream]
    itself, the [stream] member of a Vertex result, the [data] of an axios
    response asked with [responseType: 'stream'], the [body] of a speech
    response. [props] are the data properties of the object. *)
Inductive Answer : Type :=
| Data (v : JsValue)
| Stream (props : JsValue) (events : list JsValue) (ending : option JsError).

Definition as_data (a : Answer) : JsValue :=
  match a with Data v => v | Stream props _ _ => props end.

(** The items of [for (const x of v)] over a value. *)
Definition iterable (v : JsValue) : Result (list JsValue) :=
  match v with
  | JArr items => Ok items
  | JStr s => Ok (map (fun c => JStr (String c EmptyString)) (list_ascii_of_string s))
  | _ => Err (TypeError (ToString v ++ " is not iterable"))
  end.

(** The items of [for await (const x of a)]. *)
Definition stream_items (a : Answer) : Result (list JsValue * option JsError) :=
  match a with
  | Stream _ events ending => Ok (events, ending)
  | Data v => match iterable v with
              | Ok items => Ok (items, None)
              | Err e => Err e
              end
  end.

(** The same for a member that holds the stream ([result.stream]). *)
Definition member_stream (a : Answer) (k : string) : Result (list JsValue * option JsError) :=
  match a with
  | Stream _ events ending => Ok (events, ending)
  | Data v =>
      if nullish v
      then Err (TypeError ("Cannot read properties of undefined (reading '" ++ k ++ "')"))
      else match iterable (get v k) with
           | Ok items => Ok (items, None)
           | Err e => Err e
           end
  end.

(** A Node readable ([.on], [.pipe]): only a [Stream] answer has one. *)
Definition readable (a : Answer) (k : string) : Result (list JsValue * option JsError) :=
  match a with
  | Stream _ events ending => Ok (events, ending)
  | Data v => Err (TypeError ("Cannot read properties of undefined (reading '" ++ k ++ "')"))
  end.

(* ===================================================================== *)
(** ** Handlers as state-and-exception computations *)
(* ===================================================================== *)

Record World : Type := {
  res : Response;
  trace : list Effect
}.

Definition start : World := {| res := fresh_response; trace := [] |}.

(** [Pending]: the handler is still waiting (the poll loop was cut). *)
Inductive Outcome (A : Type) : Type :=
| Val (a : A)
| Throw (e : JsError)
| Pending.
Arguments Val {A} a.
Arguments Throw {A} e.
Arguments Pending {A}.

Definition M (A : Type) : Type := World -> Outcome A * World.

Definition ret {A} (a : A) : M A := fun w => (Val a, w).
Definition throw {A} (e : JsError) : M A := fun w => (Throw e, w).
Definition pending {A} : M A := fun w => (Pending, w).

Definition bind {A B} (c : M A) (k : A -> M B) : M B :=
  fun w => match c w with
           | (Val a, w') => k a w'
           | (Throw e, w') => (Throw e, w')
           | (Pending, w') => (Pending, w')
           end.

Notation "x <- c1 ;; c2" := (bind c1 (fun x => c2))
  (at level 61, c1 at next level, right associativity).
Notation "c1 ;; c2" := (bind c1 (fun _ => c2))
  (at level 61, right associativity).

(** [try { body } catch (err) { handler err }] *)
Definition try_catch {A} (body : M A) (handler : JsError -> M A) : M A :=
  fun w => match body w with
           | (Throw e, w') => handler e w'
           | other => other
           end.

Definition lift {A} (r : Result A) : M A :=
  match r with Ok a => ret a | Err e => throw e end.

(** [v.k], which throws on [undefined] and [null]. *)
Definition member (v : JsValue) (k : string) : M JsValue :=
  if nullish v
  then throw (TypeError ("Cannot read properties of undefined (reading '" ++ k ++ "')"))
  else ret (get v k).

(** [v[i]] *)
Definition element (v : JsValue) (i : nat) : M JsValue :=
  if nullish v
  then throw (TypeError "Cannot read properties of undefined (reading '0')")
  else ret (at_ v i).

Fixpoint for_each {A} (items : list A) (body : A -> M unit) : M unit :=
  match items with
  | [] => ret tt
  | x :: rest => body x ;; for_each rest body
  end.

(** [for await (const x of src) body]: the items in order, then the
    error the source ends with, if any. *)
Definition for_await (src : Result (list JsValue * option JsError))
    (body : JsValue -> M unit) : M unit :=
  match src with
  | Err e => throw e
  | Ok (items, ending) =>
      for_each items body ;;
      match ending with
      | Some e => throw e
      | None => ret tt
      end
  end.

(** *** Methods of [res] *)

Definition ERR_HTTP_HEADERS_SENT : JsError :=
  {| e_name := "Error";
     e_message := "Cannot set headers after they are sent to the client";
     e_response := None |}.

Definition update (f : Response -> Response) : M unit :=
  fun w => (Val tt, {| res := f (res w); trace := trace w |}).

Definition read_headersSent : M bool := fun w => (Val (headersSent (res w)), w).
Definition read_headers : M (list (string * string)) := fun w => (Val (headers (res w)), w).

Definition setHeader (k v : string) : M unit :=
  fun w =>
    if headersSent (res w) then (Throw ERR_HTTP_HEADERS_SENT, w)
    else update (fun r => {| statusCode := statusCode r; headers := (k, v) :: headers r;
                             headersSent := false; written := written r; ended := ended r |}) w.

Definition flushHeaders : M unit :=
  update (fun r => {| statusCode := statusCode r; headers := headers r;
                      headersSent := true; written := written r; ended := ended r |}).

Definition status (code : Z) : M unit :=
  update (fun r => {| statusCode := code; headers := headers r;
                      headersSent := headersSent r; written := written r; ended := ended r |}).

(** [res.write(chunk)] sends the headers if they were not sent; after
    [end] the chunk is dropped. *)
Definition write (c : Chunk) : M unit :=
  update (fun r => {| statusCode := statusCode r; headers := headers r;
                      headersSent := true;
                      written := if (0 <? ended r)%nat then written r else written r ++ [c];
                      ended := ended r |}).

Definition end_ : M unit :=
  update (fun r => {| statusCode := statusCode r; headers := headers r;
                      headersSent := true; written := written r; ended := S (ended r) |}).

(** [res.json(v)] and [res.send(v)] set headers of their own, so they
    throw once the headers are sent; otherwise they write the body and
    close the sink. *)
Definition respond (content_type : string) (c : Chunk) : M unit :=
  sent <- read_headersSent ;;
  if sent then throw ERR_HTTP_HEADERS_SENT
  else
    hs <- read_headers ;;
    (match assoc "Content-Type" hs with
     | Some _ => ret tt
     | None => setHeader "Content-Type" content_type
     end) ;;
    write c ;;
    end_.

Definition json (v : JsValue) : M unit := respond "application/json; charset=utf-8" (Json v).
Definition send (v : JsValue) : M unit := respond "application/octet-stream" (Raw v).

(** The SSE frame [`data: ${payload}\n\n`]. *)
Definition frame (payload : string) : Chunk := Text ("data: " ++ payload ++ nl ++ nl).
Definition DONE : Chunk := frame "[DONE]".

Definition obj1 (k : string) (v : JsValue) : JsValue := JObj [(k, v)].

(** [{ error: msg }] *)
Definition error_body (msg : string) : JsValue := obj1 "error" (JStr msg).

(** [err.response?.status || 500] *)
Definition status_or_500 (e : JsError) : Z :=
  match e_response e with
  | Some r => if (r_status r =? 0)%Z then 500%Z else r_status r
  | None => 500%Z
  end.

(** [err.response?.data] *)
Definition response_data (e : JsError) : JsValue :=
  match e_response e with Some r => r_data r | None => JUndefined end.

(** [headers["x-requestid"] || headers["x-ms-requestid"] || ""] *)
Definition requestId_of (e : JsError) : JsValue :=
  let hs := match e_response e with Some r => r_headers r | None => [] end in
  js_or (js_or (lookup hs "x-requestid") (lookup hs "x-ms-requestid")) (JStr "").

(** The decoding of the upstream error body shared by the two catch
    blocks (server.js 451-456 and 633-638). *)
Definition decode_details (d : JsValue) : JsValue :=
  match d with
  | JBuffer b => JStr b
  | JNull | JArr _ | JObj _ => JStr (stringified d)
  | _ => d
  end.

(** [v === false] *)
Definition is_false (v : JsValue) : bool :=
  match v with JBool false => true | _ => false end.

(** [v === "s"] *)
Definition is_string (v : JsValue) (s : string) : bool :=
  match v with JStr t => t =? s | _ => false end.

(** The request body after [express.json()]: the fields of an object. *)
Definition Body : Type := list (string * JsValue).

Definition field (body : Body) (k : string) : JsValue :=
  match assoc k body with Some v => v | None => JUndefined end.

Fixpoint map_result {A B} (f : A -> Result B) (l : list A) : Result (list B) :=
  match l with
  | [] => Ok []
  | x :: rest =>
      match f x with
      | Err e => Err e
      | Ok y => match map_result f rest with
                | Err e => Err e
                | Ok ys => Ok (y :: ys)
                end
      end
  end.

(** [`${m.role.toUpperCase()}: ${m.content}`] *)
Definition prompt_line (m : JsValue) : Result string :=
  if nullish m
  then Err (TypeError "Cannot read properties of undefined (reading 'role')")
  else match get m "role" with
       | JStr r => Ok (toUpperCase r ++ ": " ++ ToString (get m "content"))
       | JUndefined | JNull =>
           Err (TypeError "Cannot read properties of undefined (reading 'toUpperCase')")
       | _ => Err (TypeError "m.role.toUpperCase is not a function")
       end.

(** [messages.map(...).join("\n")] (server.js 167) *)
Definition promptText (messages : JsValue) : Result string :=
  match messages with
  | JArr items =>
      match map_result prompt_line items with
      | Ok lines => Ok (join nl lines)
      | Err e => Err e
      end
  | JUndefined | JNull =>
      Err (TypeError "Cannot read properties of undefined (reading 'map')")
  | _ => Err (TypeError "messages.map is not a function")
  end.

(** The voice of the two OpenAI speech branches (server.js 324-327 and
    483-486): [allowed.includes((selectedVoice || "").trim().toLowerCase())
    ? selectedVoice.trim().toLowerCase() : "fable"]. *)
Definition allowedVoices : list string :=
  ["alloy"; "echo"; "fable"; "onyx"; "nova"; "shimmer"].

Definition allowed_voice (selectedVoice : JsValue) : Result string :=
  match trim_of (js_or selectedVoice (JStr "")) with
  | Err e => Err e
  | Ok t =>
      if includes allowedVoices (toLowerCase t)
      then match trim_of selectedVoice with
           | Err e => Err e
           | Ok t' => Ok (toLowerCase t')
           end
      else Ok "fable"
  end.

(** [(v || "").trim().toLowerCase()], as applied to [selectedLanguage]
    and to the [selectedVoice] of azureTextToSpeech. *)
Definition trim_lower (v : JsValue) : Result string :=
  match trim_of (js_or v (JStr "")) with
  | Err e => Err e
  | Ok t => Ok (toLowerCase t)
  end.

(** The language tables of the azureTTS-Scaleway and elevenlabs branches
    (server.js 412-416 and 599) and the voice table of azureTextToSpeech
    (server.js 507). *)
Definition azureVoiceMap : list (string * string) :=
  [ ("français", "fr-FR-RemyMultilingualNeural");
    ("espagnol", "es-ES-ElviraNeural");
    ("anglais", "en-US-JennyNeural") ].

Definition elevenVoiceMap : list (string * string) :=
  [ ("espagnol", "l1zE9xgNpUTaQCZzpNJa");
    ("français", "1a3lMdKLUcfcMtvN772u");
    ("anglais", "7tRwuZTD1EWi6nydVerp") ].

Definition ttsVoiceMap : list (string * string) :=
  [ ("alloy", "alloy"); ("echo", "echo"); ("fable", "fable");
    ("onyx", "onyx"); ("nova", "nova"); ("shimmer", "shimmer") ].

(** [(selectedVoice && selectedVoice.trim()) || voiceMap[lang] ||
    "fr-FR-RemyMultilingualNeural"] (server.js 417-418) *)
Definition scaleway_voice (selectedLanguage selectedVoice : JsValue) : Result JsValue :=
  match trim_lower selectedLanguage with
  | Err e => Err e
  | Ok lang =>
      match (if truthy selectedVoice
             then match trim_of selectedVoice with
                  | Ok t => Ok (JStr t)
                  | Err e => Err e
                  end
             else Ok selectedVoice) with
      | Err e => Err e
      | Ok override =>
          Ok (js_or (js_or override (lookup azureVoiceMap lang))
                    (JStr "fr-FR-RemyMultilingualNeural"))
      end
  end.

(** Reading an identifier: its value in the enclosing scopes, or a
    [ReferenceError] when no scope declares it. *)
Definition identifier (scope : list (string * JsValue)) (name : string) : M JsValue :=
  match assoc name scope with
  | Some v => ret v
  | None => throw (ReferenceError (name ++ " is not defined"))
  end.

(* ===================================================================== *)
(** ** The router [app.post("/api/:service", ...)] (server.js 140-656) *)
(* ===================================================================== *)

Section Gateway.

(** [process.env] and the answers of the upstream services: the answer
    to a call may depend on the call and on how many effects came
    before it. *)
Variable env : string -> option string.
Variable upstream : nat -> UpCall -> Result Answer.

Definition process_env (k : string) : JsValue :=
  match env k with Some s => JStr s | None => JUndefined end.

(** [await <upstream call>] *)
Definition await (c : UpCall) : M Answer :=
  fun w =>
    let w' := {| res := res w; trace := trace w ++ [Up c] |} in
    match upstream (length (trace w)) c with
    | Ok a => (Val a, w')
    | Err e => (Throw e, w')
    end.

(** [await new Promise(r => setTimeout(r, ms))] *)
Definition sleep (ms : Z) : M unit :=
  fun w => (Val tt, {| res := res w; trace := trace w ++ [Sleep ms] |}).

(** [if (delta) res.write(`data: ${JSON.stringify(wrap(delta))}\n\n`)] *)
Definition write_delta (wrap : JsValue -> JsValue) (delta : JsValue) : M unit :=
  if truthy delta then write (frame (stringified (wrap delta))) else ret tt.

Definition delta_envelope (delta : JsValue) : JsValue := obj1 "delta" delta.

Definition choices_envelope (delta : JsValue) : JsValue :=
  obj1 "choices" (JArr [obj1 "delta" (obj1 "content" delta)]).

(** Raw relay of a readable: [on('data', chunk => res.write(chunk))],
    [on('end', () => res.end())], and [readable.pipe(res)]. The callbacks
    run after the handler returned, so an error of the source reaches no
    catch block: the relay stops and the sink stays open. *)
Definition relay_raw (src : Result (list JsValue * option JsError)) : M unit :=
  match src with
  | Err e => throw e
  | Ok (chunks, ending) =>
      for_each chunks (fun chunk => write (Raw chunk)) ;;
      match ending with
      | None => end_
      | Some _ => ret tt
      end
  end.

(** server.js 146-161 *)
Definition azureOpenaiSimulateur (body : Body) : M unit :=
  let apiKey := process_env "AZURE_OPENAI_KEY_SIMULATEUR" in
  let endpoint := process_env "AZURE_OPENAI_ENDPOINT_SIMULATEUR" in
  let deployment := process_env "AZURE_OPENAI_DEPLOYMENT_SIMULATEUR" in
  let apiVersion := process_env "AZURE_OPENAI_API_VERSION" in
  let apiUrl := ToString endpoint ++ "/openai/deployments/" ++ ToString deployment
                ++ "/chat/completions?api-version=" ++ ToString apiVersion in
  response <- await (AxiosPost apiUrl (JObj body)
                       [("api-key", apiKey); ("Content-Type", JStr "application/json")]
                       "stream") ;;
  setHeader "Content-Type" "text/event-stream" ;;
  setHeader "Cache-Control" "no-cache" ;;
  relay_raw (readable response "on").

(** server.js 164-206 *)
Definition vertexChat (body : Body) : M unit :=
  let messages := field body "messages" in
  let stream := default_to (JBool true) (field body "stream") in
  promptText <- lift (promptText messages) ;;
  if is_false stream then
    try_catch
      (result <- await (VertexGenerateContent promptText) ;;
       let text :=
         js_or (get (at_ (get (get (at_ (get (get (as_data result) "response")
                                             "candidates") 0) "content") "parts") 0) "text")
               (JStr "") in
       json (obj1 "text" text))
      (fun err => status 500 ;; json (error_body (e_message err)))
  else
    try_catch
      (setHeader "Content-Type" "text/event-stream" ;;
       setHeader "Cache-Control" "no-cache" ;;
       flushHeaders ;;
       result <- await (VertexGenerateContentStream promptText) ;;
       for_await (member_stream result "stream")
         (fun item =>
            candidates <- member item "candidates" ;;
            let delta := get (at_ (get (get (at_ candidates 0) "content") "parts") 0) "text" in
            write_delta delta_envelope delta) ;;
       write DONE ;;
       end_)
      (fun err =>
         sent <- read_headersSent ;;
         if negb sent then status 500 ;; json (error_body (e_message err))
         else
           write (frame (stringified (error_body (e_message err)))) ;;
           write DONE ;;
           end_).

(** server.js 209-228 *)
Definition openaiSimulateur (body : Body) : M unit :=
  setHeader "Content-Type" "text/event-stream" ;;
  setHeader "Cache-Control" "no-cache" ;;
  flushHeaders ;;
  stream <- await (ChatCompletionsCreate (field body "model") (field body "messages")) ;;
  for_await (stream_items stream)
    (fun part =>
       choices <- member part "choices" ;;
       let delta := get (get (at_ choices 0) "delta") "content" in
       write_delta choices_envelope delta) ;;
  let totalTokens := js_or (get (get (as_data stream) "usage") "total_tokens") (JNum 0) in
  write (frame (stringified (obj1 "usage" (obj1 "total_tokens" totalTokens)))) ;;
  write DONE ;;
  end_.

(** The [do ... while] of server.js 237-240, cut after [fuel] rounds. *)
Fixpoint poll (fuel : nat) (threadId runId : JsValue) : M JsValue :=
  match fuel with
  | O => pending
  | S fuel' =>
      sleep 1000 ;;
      answer <- await (ThreadsRunsRetrieve threadId runId) ;;
      let status := as_data answer in
      s <- member status "status" ;;
      if negb (is_string s "completed") && negb (is_string s "failed")
      then poll fuel' threadId runId
      else ret status
  end.

(** server.js 231-247 *)
Definition assistantOpenaiAnalyse (fuel : nat) (body : Body) : M unit :=
  let assistantId := process_env "OPENAI_ASSISTANTID" in
  thread <- await (ThreadsCreate (field body "messages")) ;;
  threadId <- member (as_data thread) "id" ;;
  run <- await (ThreadsRunsCreate threadId assistantId) ;;
  runId <- member (as_data run) "id" ;;
  status_ <- poll fuel threadId runId ;;
  if negb (is_string (get status_ "status") "completed")
  then status 500 ;;
       json (JObj [("error", JStr "Assistant run failed");
                   ("details", get status_ "status")])
  else
    msgs <- await (ThreadsMessagesList threadId) ;;
    data <- member (as_data msgs) "data" ;;
    first <- element data 0 ;;
    let answer := js_or (get (get (at_ (get first "content") 0) "text") "value") (JStr "") in
    json (obj1 "answer" answer).

(** server.js 250-274 *)
Definition assistantOpenaiAnalyseStreaming (body : Body) : M unit :=
  let assistantId := process_env "OPENAI_ASSISTANTID" in
  thread <-
    (if truthy (field body "threadId")
     then
       let thread := obj1 "id" (field body "threadId") in
       msgs <- lift (iterable (field body "messages")) ;;
       for_each msgs (fun msg =>
         await (ThreadsMessagesCreate (get thread "id") msg) ;; ret tt) ;;
       ret thread
     else
       created <- await (ThreadsCreate (field body "messages")) ;;
       ret (as_data created)) ;;
  setHeader "Content-Type" "text/event-stream" ;;
  setHeader "Cache-Control" "no-cache" ;;
  flushHeaders ;;
  (if negb (truthy (field body "threadId"))
   then threadId <- member thread "id" ;;
        write (frame (stringified (obj1 "threadId" threadId)))
   else ret tt) ;;
  threadId <- member thread "id" ;;
  stream <- await (ThreadsRunsCreateAndStream threadId assistantId) ;;
  for_await (stream_items stream)
    (fun event =>
       data <- member event "data" ;;
       let delta := get (get data "delta") "content" in
       write_delta delta_envelope delta) ;;
  write DONE ;;
  end_.

(** server.js 277-300 *)
Definition openaiAnalyse (body : Body) : M unit :=
  setHeader "Content-Type" "text/event-stream" ;;
  setHeader "Cache-Control" "no-cache" ;;
  setHeader "Connection" "keep-alive" ;;
  setHeader "Access-Control-Allow-Origin" "*" ;;
  flushHeaders ;;
  try_catch
    (stream <- await (ChatCompletionsCreate (field body "model") (field body "messages")) ;;
     for_await (stream_items stream)
       (fun part =>
          choices <- member part "choices" ;;
          let delta := get (get (at_ choices 0) "delta") "content" in
          write_delta delta_envelope delta) ;;
     write DONE ;;
     end_)
    (fun err =>
       write (frame (stringified (error_body "Errore durante lo streaming AI."))) ;;
       end_).

(** server.js 303-316 *)
Definition azureOpenaiAnalyse (body : Body) : M unit :=
  let apiKey := process_env "AZURE_OPENAI_KEY_SIMULATEUR" in
  let endpoint := process_env "AZURE_OPENAI_ENDPOINT_SIMULATEUR" in
  let deployment := process_env "AZURE_OPENAI_DEPLOYMENT_COACH" in
  let apiVersion := process_env "AZURE_OPENAI_API_VERSION_COACH" in
  let apiUrl := ToString endpoint ++ "/openai/deployments/" ++ ToString deployment
                ++ "/chat/completions?api-version=" ++ ToString apiVersion in
  try_catch
    (response <- await (AxiosPost apiUrl (JObj body)
                          [("api-key", apiKey); ("Content-Type", JStr "application/json")]
                          "json") ;;
     data <- member (as_data response) "data" ;;
     json data)
    (fun err =>
       status (status_or_500 err) ;;
       json (js_or (response_data err) (error_body "Errore interno Azure Analyse"))).

(** server.js 319-340 *)
Definition openai_tts (body : Body) : M unit :=
  let apiKey := process_env "OPENAI_API_KEY_SIMULATEUR" in
  if negb (truthy apiKey) then status 500 ;; json (error_body "OpenAI API key missing")
  else
    let text := field body "text" in
    let selectedVoice := field body "selectedVoice" in
    if negb (truthy text) then status 400 ;; json (error_body "Text is required")
    else
      voice <- lift (allowed_voice selectedVoice) ;;
      try_catch
        (response <- await (AxiosPost "https://api.openai.com/v1/audio/speech"
                              (JObj [("model", JStr "gpt-4o-mini-tts");
                                     ("input", text);
                                     ("voice", JStr voice);
                                     ("instructions", JStr "Speak in a gentle, slow and friendly way.")])
                              [("Authorization", JStr ("Bearer " ++ ToString apiKey));
                               ("Content-Type", JStr "application/json")]
                              "arraybuffer") ;;
         setHeader "Content-Type" "audio/mpeg" ;;
         data <- member (as_data response) "data" ;;
         send data)
        (fun err =>
           status (status_or_500 err) ;;
           json (JObj [("error", JStr "OpenAI TTS failed");
                       ("details", JStr (e_message err))])).

(** The catch block of the azureTTS-Scaleway branch (server.js 446-474). *)
Definition scaleway_catch (ssml : string) (err : JsError) : M unit :=
  let status_ := status_or_500 err in
  let requestId := requestId_of err in
  let textErr := decode_details (response_data err) in
  let DEBUG_TTS := is_string (process_env "DEBUG_TTS") "true" in
  status status_ ;;
  json (JObj ([("error", JStr "Azure Speech TTS failed");
               ("azureStatus", JNum status_);
               ("requestId", requestId);
               ("details", js_or textErr (JStr "no-body"))]
              ++ (if DEBUG_TTS then [("ssml", JStr ssml)] else []))).

(** server.js 393-476. Where line 421 reads [style], the branch has bound
    the names listed in [scope] and also [voiceMap], [lang], and (not yet
    initialised) [safeStyle] and [ssml]; the callback binds [req], [res]
    and [service]; the module level binds the required packages,
    [upload], [app], [port], [saKey], [keyPath], [openai], [vertexAI],
    [vertexModel], [API_TIMEOUT], [axiosInstance], [pool],
    [streamAssistant], [escapeXml] and [buildSSML]. None of them is
    [style]. *)
Definition azureTTS_Scaleway (body : Body) : M unit :=
  let text := field body "text" in
  let selectedLanguage := field body "selectedLanguage" in
  let selectedVoice := field body "selectedVoice" in
  if negb (truthy text) then status 400 ;; json (error_body "Text is required")
  else
    let apiKey := process_env "AZURE_TTS_KEY_AI_SERVICES" in
    let region := process_env "AZURE_REGION_AI_SERVICES" in
    if negb (truthy apiKey) || negb (truthy region)
    then status 500 ;;
         json (error_body "Missing Azure Speech env vars (AZURE_TTS_KEY_AI_SERVICES, AZURE_REGION_AI_SERVICES)")
    else
      let endpoint := "https://" ++ ToString region
                      ++ ".tts.speech.microsoft.com/cognitiveservices/v1" in
      voice <- lift (scaleway_voice selectedLanguage selectedVoice) ;;
      let scope := [("text", text); ("selectedLanguage", selectedLanguage);
                    ("selectedVoice", selectedVoice); ("apiKey", apiKey);
                    ("region", region); ("endpoint", JStr endpoint);
                    ("voice", voice)] in
      style <- identifier scope "style" ;;
      let safeStyle := if truthy style && negb (is_string style "default")
                       then style else JNull in
      ssml <- lift (buildSSML {| text := text; voice := voice;
                                 style := JUndefined; styleDegree := JUndefined;
                                 rate := JUndefined; pitch := JUndefined;
                                 volume := JUndefined;
                                 leadingSilenceMs := JNum 0;
                                 trailingSilenceMs := JNum 0 |}) ;;
      try_catch
        (responseTTS <- await (AxiosPost endpoint (JStr ssml)
                                 [("Ocp-Apim-Subscription-Key", apiKey);
                                  ("Content-Type", JStr "application/ssml+xml; charset=utf-8");
                                  ("X-Microsoft-OutputFormat", JStr "audio-16khz-24kbitrate-mono-mp3")]
                                 "arraybuffer") ;;
         setHeader "Content-Type" "audio/mpeg" ;;
         data <- member (as_data responseTTS) "data" ;;
         send data)
        (scaleway_catch ssml).

(** server.js 480-496 *)
Definition streaming_openai_tts (body : Body) : M unit :=
  let text := field body "text" in
  let selectedVoice := field body "selectedVoice" in
  if negb (truthy text) then status 400 ;; json (error_body "Text is required")
  else
    voice <- lift (allowed_voice selectedVoice) ;;
    try_catch
      (ttsResp <- await (AudioSpeechCreate "tts-1" text voice
                           "Speak in a cheerful and positive tone.") ;;
       setHeader "Content-Type" "audio/mpeg" ;;
       setHeader "Transfer-Encoding" "chunked" ;;
       relay_raw (readable ttsResp "pipe"))
      (fun err => status 500 ;; json (error_body "OpenAI TTS failed")).

(** server.js 499-519 *)
Definition azureTextToSpeech (body : Body) : M unit :=
  let text := field body "text" in
  let selectedVoice := field body "selectedVoice" in
  if negb (truthy text) then status 400 ;; json (error_body "Text is required")
  else
    let endpoint := process_env "AZURE_TTS_ENDPOINT" in
    let apiKey := process_env "AZURE_TTS_KEY" in
    let url := ToString endpoint
               ++ "/openai/deployments/tts/audio/speech?api-version=2025-03-01-preview" in
    key <- lift (trim_lower selectedVoice) ;;
    let voice := js_or (lookup ttsVoiceMap key) (JStr "fable") in
    try_catch
      (response <- await (AxiosPost url
                            (JObj [("model", JStr "tts-1"); ("input", text); ("voice", voice)])
                            [("Content-Type", JStr "application/json");
                             ("api-key", apiKey); ("Accept", JStr "audio/mpeg")]
                            "arraybuffer") ;;
       setHeader "Content-Type" "audio/mpeg" ;;
       data <- member (as_data response) "data" ;;
       send data)
      (fun err =>
         status (status_or_500 err) ;;
         json (JObj [("error", JStr "Azure TTS failed");
                     ("details", JStr (e_message err))])).

(** [.header(...)] three times, as both database branches chain them. *)
Definition cors_headers : M unit :=
  setHeader "Access-Control-Allow-Origin" "*" ;;
  setHeader "Access-Control-Allow-Methods" "GET,POST,OPTIONS" ;;
  setHeader "Access-Control-Allow-Headers" "Content-Type".

Definition insert_sql : string :=
  "INSERT INTO userlist (chatbot_name, user_email, name, score, chat_history, chat_analysis, usergroup, timesession)"
  ++ nl ++ "                    VALUES ($1, $2, $3, $4, $5, $6, $7, $8::interval)"
  ++ nl ++ "                    RETURNING *".

(** server.js 520-557 *)
Definition userList (body : Body) : M unit :=
  try_catch
    (result <- await (PoolQuery insert_sql
                        [field body "chatbotID"; field body "userID";
                         field body "userName"; field body "userScore";
                         field body "historique"; field body "rapport";
                         field body "usergroup";
                         js_or (field body "timeSession") (JStr "N/A")]) ;;
     status 201 ;;
     cors_headers ;;
     rows <- member (as_data result) "rows" ;;
     row <- element rows 0 ;;
     json (JObj [("message", JStr "Utente inserito!"); ("data", row)]))
    (fun err =>
       status 500 ;;
       cors_headers ;;
       json (error_body (e_message err))).

(** server.js 559-593 *)
Definition updateUserGroup (body : Body) : M unit :=
  let userID := field body "userID" in
  let usergroup := field body "usergroup" in
  try_catch
    (result <- await (PoolQuery "UPDATE userlist SET usergroup = $1 WHERE user_email = $2"
                        [usergroup; userID]) ;;
     rowCount <- member (as_data result) "rowCount" ;;
     status 200 ;;
     cors_headers ;;
     json (JObj [("message", JStr "Record aggiornati!"); ("count", rowCount);
                 ("userID", userID); ("usergroup", usergroup)]))
    (fun err =>
       status 500 ;;
       cors_headers ;;
       json (error_body (e_message err))).

(** server.js 595-622 *)
Definition elevenlabs (body : Body) : M unit :=
  let apiKey := process_env "ELEVENLAB_API_KEY" in
  if negb (truthy apiKey) then status 500 ;; json (error_body "ElevenLabs API key missing")
  else
    let text := field body "text" in
    let selectedLanguage := field body "selectedLanguage" in
    lang <- lift (trim_lower selectedLanguage) ;;
    let voiceId := lookup elevenVoiceMap lang in
    if negb (truthy voiceId) then status 400 ;; json (error_body "Not supported language")
    else
      let apiUrl := "https://api.elevenlabs.io/v1/text-to-speech/" ++ ToString voiceId
                    ++ "/stream" in
      try_catch
        (response <- await (AxiosPost apiUrl
                              (JObj [("text", text);
                                     ("model_id", JStr "eleven_flash_v2_5");
                                     ("voice_settings",
                                      JObj [("stability", JFrac "0.6");
                                            ("similarity_boost", JFrac "0.7");
                                            ("style", JFrac "0.1")])])
                              [("xi-api-key", apiKey);
                               ("Content-Type", JStr "application/json")]
                              "arraybuffer") ;;
         setHeader "Content-Type" "audio/mpeg" ;;
         data <- member (as_data response) "data" ;;
         send data)
        (fun err =>
           match e_response err with
           | Some r =>
               let msg := if nullish (r_data r) then "Unknown error"
                          else ToString (r_data r) in
               status (r_status r) ;;
               json (error_body msg)
           | None =>
               status 500 ;;
               json (error_body "Unknown error with ElevenLabs")
           end).

(** The catch block of the router (server.js 628-655). *)
Definition api_request_error (service : string) (error : JsError) : M unit :=
  let status_ := status_or_500 error in
  let requestId := requestId_of error in
  let details := decode_details (response_data error) in
  status status_ ;;
  json (JObj [("error", JStr "API request error");
              ("service", JStr service);
              ("status", JNum status_);
              ("message", JStr (e_message error));
              ("requestId", requestId);
              ("details", details)]).

(** The chain of [if (service === ...)] tests. *)
Definition dispatch (fuel : nat) (service : string) (body : Body) : M unit :=
  if service =? "azureOpenaiSimulateur" then azureOpenaiSimulateur body
  else if service =? "vertexChat" then vertexChat body
  else if service =? "openaiSimulateur" then openaiSimulateur body
  else if service =? "assistantOpenaiAnalyse" then assistantOpenaiAnalyse fuel body
  else if service =? "assistantOpenaiAnalyseStreaming" then assistantOpenaiAnalyseStreaming body
  else if service =? "openaiAnalyse" then openaiAnalyse body
  else if service =? "azureOpenaiAnalyse" then azureOpenaiAnalyse body
  else if service =? "openai-tts" then openai_tts body
  else if service =? "azureTTS-Scaleway" then azureTTS_Scaleway body
  else if service =? "streaming-openai-tts" then streaming_openai_tts body
  else if service =? "azureTextToSpeech" then azureTextToSpeech body
  else if service =? "userList" then userList body
  else if service =? "updateUserGroup" then updateUserGroup body
  else if service =? "elevenlabs" then elevenlabs body
  else status 400 ;; json (error_body "Invalid service").

(** The callback of [app.post("/api/:service", ...)]. *)
Definition api_service (fuel : nat) (service : string) (body : Body) : M unit :=
  try_catch (dispatch fuel service body) (api_request_error service).

(** One request, from a fresh response object. *)
Definition serve (fuel : nat) (service : string) (body : Body) : Outcome unit * World :=
  api_service fuel service body start.

End Gateway.

(** The names the router handles. *)
Definition services : list string :=
  [ "azureOpenaiSimulateur"; "vertexChat"; "openaiSimulateur";
    "assistantOpenaiAnalyse"; "assistantOpenaiAnalyseStreaming"; "openaiAnalyse";
    "azureOpenaiAnalyse"; "openai-tts"; "azureTTS-Scaleway";
    "streaming-openai-tts"; "azureTextToSpeech"; "userList"; "updateUserGroup";
    "elevenlabs" ].

(** Observations on the world a request leaves. *)
Definition calls (w : World) : list UpCall :=
  flat_map (fun e => match e with Up c => [c] | Sleep _ => [] end) (trace w).

Definition frames (w : World) : list Chunk := written (res w).

Definition no_env : string -> option string := fun _ => None.
Definition no_upstream : nat -> UpCall -> Result Answer :=
  fun _ _ => Err {| e_name := "Error"; e_message := "connect ECONNREFUSED"; e_response := None |}.


(* ===================================================================== *)
(** ** The escaping as the specification words it *)
(* ===================================================================== *)

(** The named entity of a reserved character; any other character stands
    for itself. *)
Definition entity (c : ascii) : string :=
  if Ascii.eqb c "&"%char then "&amp;"
  else if Ascii.eqb c "<"%char then "&lt;"
  else if Ascii.eqb c ">"%char then "&gt;"
  else if Ascii.eqb c "034"%char then "&quot;"
  else if Ascii.eqb c "039"%char then "&apos;"
  else String c EmptyString.

(** One pass over the text, each character replaced by its entity. *)
Fixpoint escape_single_pass (s : string) : string :=
  match s with
  | EmptyString => EmptyString
  | String c r => entity c ++ escape_single_pass r
  end.

(** The characters that open or close markup. *)
Definition markup_delimiter (c : ascii) : bool :=
  Ascii.eqb c "<"%char || Ascii.eqb c ">"%char
  || Ascii.eqb c "034"%char || Ascii.eqb c "039"%char.

Fixpoint all_chars (f : ascii -> bool) (s : string) : bool :=
  match s with
  | EmptyString => true
  | String c r => f c && all_chars f r
  end.

Definition with_text (p : SSMLParams) (t : JsValue) : SSMLParams :=
  {| text := t; voice := voice p; style := style p; styleDegree := styleDegree p;
     rate := rate p; pitch := pitch p; volume := volume p;
     leadingSilenceMs := leadingSilenceMs p;
     trailingSilenceMs := trailingSilenceMs p |}.



Definition example_params : SSMLParams :=
  {| text := JStr ("Tom & <b>" ++ dq ++ "Jerry" ++ dq ++ "</b>");
     voice := JStr "fr-FR-RemyMultilingualNeural";
     style := JStr "cheerful"; styleDegree := JNum 2;
     rate := JStr "+12%"; pitch := JStr "-3st"; volume := JStr "loud";
     leadingSilenceMs := JUndefined; trailingSilenceMs := JNum 250 |}.

(* ===================================================================== *)
(** ** Responses and requests named in the properties *)
(* ===================================================================== *)

(** A response sent by one [res.status(code).json(body)] on a fresh
    response object. *)
Definition json_response (code : Z) (body : JsValue) : Response :=
  {| statusCode := code;
     headers := [("Content-Type", "application/json; charset=utf-8")];
     headersSent := true;
     written := [Json body];
     ended := 1 |}.

(** The body the router's catch block sends for an error that carries no
    upstream response. *)
Definition api_request_error_body (service message : string) : JsValue :=
  JObj [("error", JStr "API request error");
        ("service", JStr service);
        ("status", JNum 500);
        ("message", JStr message);
        ("requestId", JStr "");
        ("details", JUndefined)].

(** A binary answer passed on by [res.send] as [audio/mpeg]. *)
Definition audio_response (data : JsValue) : Response :=
  {| statusCode := 200;
     headers := [("Content-Type", "audio/mpeg")];
     headersSent := true;
     written := [Raw data];
     ended := 1 |}.


(** The upstream call of the openai-tts branch for a given voice. *)
Definition openai_tts_call (apiKey input : JsValue) (voice_ : string) : UpCall :=
  AxiosPost "https://api.openai.com/v1/audio/speech"
    (JObj [("model", JStr "gpt-4o-mini-tts");
           ("input", input);
           ("voice", JStr voice_);
           ("instructions", JStr "Speak in a gentle, slow and friendly way.")])
    [("Authorization", JStr ("Bearer " ++ ToString apiKey));
     ("Content-Type", JStr "application/json")]
    "arraybuffer".

Definition env_of (l : list (string * string)) : string -> option string :=
  fun k => assoc k l.

(** A computation that asks nothing of the upstream services and does
    not sleep. *)
Definition quiet {A} (c : M A) : Prop := forall w, trace (snd (c w)) = trace w.

Definition scaleway_env : string -> option string :=
  env_of [("AZURE_TTS_KEY_AI_SERVICES", "key"); ("AZURE_REGION_AI_SERVICES", "westeurope")].

Definition italien_request : Body :=
  [("text", JStr "Hola"); ("selectedLanguage", JStr "italien")].

Definition bogus_request : Body :=
  [("text", JStr "Bonjour"); ("selectedVoice", JStr "bogus")].

Definition openai_env : string -> option string :=
  env_of [("OPENAI_API_KEY_SIMULATEUR", "sk-test"); ("OPENAI_ASSISTANTID", "asst_1")].

(** An axios response whose [data] is a (short) buffer. *)
Definition mp3_answer : JsValue := obj1 "data" (JBuffer "ID3").

(** An upstream that answers every call with the same value. *)
Definition always (a : Answer) : nat -> UpCall -> Result Answer := fun _ _ => Ok a.

(** The delta the three kinds of stream loop read from an item. *)
Definition chat_delta (part : JsValue) : JsValue :=
  get (get (at_ (get part "choices") 0) "delta") "content".

Definition assistant_delta (event : JsValue) : JsValue :=
  get (get (get event "data") "delta") "content".

Definition vertex_delta (item : JsValue) : JsValue :=
  get (at_ (get (get (at_ (get item "candidates") 0) "content") "parts") 0) "text".

(** One frame for each item whose delta is truthy, in the order of the
    items. *)
Definition delta_frames (wrap extract : JsValue -> JsValue) (items : list JsValue)
  : list Chunk :=
  map (fun d => frame (stringified (wrap d))) (filter truthy (map extract items)).

(** The response of an SSE branch: status, headers, the chunks written so
    far, and how often the sink was closed. *)
Definition sse_response (code : Z) (hdrs : list (string * string))
    (chunks : list Chunk) (closed : nat) : Response :=
  {| statusCode := code; headers := hdrs; headersSent := true;
     written := chunks; ended := closed |}.

Definition sse_headers : list (string * string) :=
  [("Cache-Control", "no-cache"); ("Content-Type", "text/event-stream")].

Definition openaiAnalyse_headers : list (string * string) :=
  [("Access-Control-Allow-Origin", "*"); ("Connection", "keep-alive");
   ("Cache-Control", "no-cache"); ("Content-Type", "text/event-stream")].

(** [w] after the chunks [cs] were written to a sink that is open. *)
Definition wrote (w : World) (cs : list Chunk) : World :=
  {| res := {| statusCode := statusCode (res w); headers := headers (res w);
               headersSent := true; written := written (res w) ++ cs;
               ended := ended (res w) |};
     trace := trace w |}.

Definition usage_frame (stream : Answer) : Chunk :=
  frame (stringified (obj1 "usage" (obj1 "total_tokens"
           (js_or (get (get (as_data stream) "usage") "total_tokens") (JNum 0))))).

Definition error_frame (message : string) : Chunk :=
  frame (stringified (error_body message)).

(** A chat completion chunk that carries the text [content]. *)
Definition text_event (content : string) : JsValue :=
  obj1 "choices" (JArr [obj1 "delta" (obj1 "content" (JStr content))]).

Definition upstream_failure : JsError :=
  {| e_name := "Error"; e_message := "socket hang up"; e_response := None |}.

(** An upstream whose streams yield two deltas and then fail. *)
Definition failing_chat : nat -> UpCall -> Result Answer :=
  always (Stream JUndefined [text_event "Bon"; text_event "jour"] (Some upstream_failure)).

(** A run status on which the poll loop stops. *)
Definition terminal (s : JsValue) : bool :=
  is_string s "completed" || is_string s "failed".

(** [n] rounds of the poll loop: a sleep of one second, then a query. *)
Fixpoint poll_rounds (threadId runId : JsValue) (n : nat) : list Effect :=
  match n with
  | O => []
  | S n' => Sleep 1000 :: Up (ThreadsRunsRetrieve threadId runId)
            :: poll_rounds threadId runId n'
  end.

(** [msgs.data[0]?.content?.[0]?.text?.value || ""] *)
Definition answer_of (msgs : JsValue) : JsValue :=
  js_or (get (get (at_ (get (at_ (get msgs "data") 0) "content") 0) "text") "value")
        (JStr "").

(** A run object with the given status. *)
Definition run_status (s : string) : JsValue :=
  JObj [("id", JStr "run_1"); ("status", JStr s)].

(** An assistant that is queued at the first two queries and has the
    status [final] at the third; its thread holds one answer. *)
Definition assistant_upstream (final : string) : nat -> UpCall -> Result Answer :=
  fun n c =>
    match c with
    | ThreadsCreate _ => Ok (Data (obj1 "id" (JStr "thread_1")))
    | ThreadsRunsCreate _ _ => Ok (Data (run_status "queued"))
    | ThreadsRunsRetrieve _ _ =>
        Ok (Data (run_status (if (n <? 7)%nat then "in_progress" else final)))
    | ThreadsMessagesList _ =>
        Ok (Data (obj1 "data"
                    (JArr [obj1 "content"
                             (JArr [obj1 "text" (obj1 "value" (JStr "Bravo"))])])))
    | _ => Err upstream_failure
    end.

(** A frame that announces a thread identifier. *)
Definition is_threadId_frame (c : Chunk) : bool :=
  match c with
  | Text s => prefix ("data: {" ++ dq ++ "threadId" ++ dq) s
  | _ => false
  end.

(** A message-delta event of an assistant run; its content is a list of
    parts. *)
Definition assistant_event (content : string) : JsValue :=
  obj1 "data" (obj1 "delta" (obj1 "content"
    (JArr [JObj [("index", JNum 0); ("type", JStr "text");
                 ("text", obj1 "value" (JStr content))]]))).

(** A Vertex item that carries the text [content]. *)
Definition vertex_item (content : string) : JsValue :=
  obj1 "candidates" (JArr [obj1 "content" (obj1 "parts" (JArr [obj1 "text" (JStr content)]))]).

Definition user_message (content : string) : JsValue :=
  JObj [("role", JStr "user"); ("content", JStr content)].

Definition chat_request : Body :=
  [("model", JStr "gpt-4o"); ("messages", JArr [user_message "Salut"])].

Definition follow_up_request : Body :=
  [("threadId", JStr "thread_1");
   ("messages", JArr [user_message "Et ensuite ?"; user_message "Merci"])].

(** An upstream that streams two deltas for every kind of stream and
    creates the thread "thread_1". *)
Definition streaming_upstream (ending : option JsError) : nat -> UpCall -> Result Answer :=
  fun _ c =>
    match c with
    | ChatCompletionsCreate _ _ =>
        Ok (Stream JUndefined [text_event "Bon"; text_event ""; text_event "jour"] ending)
    | VertexGenerateContentStream _ =>
        Ok (Stream JUndefined [vertex_item "Bon"; vertex_item "jour"] ending)
    | ThreadsCreate _ => Ok (Data (obj1 "id" (JStr "thread_1")))
    | ThreadsMessagesCreate _ _ => Ok (Data (obj1 "id" (JStr "msg_1")))
    | ThreadsRunsCreateAndStream _ _ =>
        Ok (Stream JUndefined [assistant_event "Bon"; assistant_event "jour"] ending)
    | _ => Err upstream_failure
    end.

(* ===================================================================== *)
(** ** The two routes beside the router (server.js 115-137, 659-674) *)
(* ===================================================================== *)

(** [req.file] as [multer.memoryStorage()] leaves it. *)
Record UploadedFile : Type := {
  originalname : string;
  buffer : string
}.

(** The [FormData] of the transcription request, by its two fields. *)
Definition whisper_form (f : UploadedFile) : JsValue :=
  JObj [("file", JObj [("value", JBuffer (buffer f));
                       ("filename", JStr (originalname f))]);
        ("model", JStr "whisper-1")].

Section Routes.

Variable env : string -> option string.
Variable upstream : nat -> UpCall -> Result Answer.

(** [app.post("/api/transcribe", upload.single("audio"), ...)].
    [boundary] is the multipart boundary [form.getHeaders()] announces,
    which the form-data package draws at random. *)
Definition transcribe (boundary : string) (file : option UploadedFile) : M unit :=
  let apiKey := process_env env "OPENAI_API_KEY_SIMULATEUR" in
  if negb (truthy apiKey) then status 500 ;; json (error_body "OpenAI API key missing")
  else
    match file with
    | None => status 400 ;; json (error_body "No audio file uploaded")
    | Some f =>
        try_catch
          (response <- await upstream
                         (AxiosPost "https://api.openai.com/v1/audio/transcriptions"
                            (whisper_form f)
                            [("content-type",
                              JStr ("multipart/form-data; boundary=" ++ boundary));
                             ("Authorization", JStr ("Bearer " ++ ToString apiKey))]
                            "json") ;;
           data <- member (as_data response) "data" ;;
           json data)
          (fun err =>
             let details := js_or (response_data err) (JStr (e_message err)) in
             status (status_or_500 err) ;;
             json (JObj [("error", JStr "Transcription failed"); ("details", details)]))
    end.


End Routes.

(* ===================================================================== *)
(** ** Notions used by the properties of the whole router *)
(* ===================================================================== *)

(** A response object nothing was sent on yet. *)
Definition unsent (w : World) : Prop :=
  headersSent (res w) = false /\ ended (res w) = 0 /\ written (res w) = [].

(** An event stream in progress: headers sent, sink open. *)
Definition streaming (w : World) : Prop :=
  headersSent (res w) = true /\ ended (res w) = 0.

(** The request was answered: the handler returned, one body was written
    and the sink was closed once. *)
Definition answered_once (r : Outcome unit * World) : Prop :=
  fst r = Val tt /\ ended (res (snd r)) = 1 /\ length (written (res (snd r))) = 1.

(** A step that returns or throws and sends nothing. *)
Definition sends_nothing {A} (c : M A) : Prop :=
  forall w, unsent w ->
    (exists a w', c w = (Val a, w') /\ unsent w')
    \/ (exists e w', c w = (Throw e, w') /\ unsent w').

(** A computation that answers, or throws before it sent anything. *)
Definition answers_or_throws (c : M unit) : Prop :=
  forall w, unsent w ->
    answered_once (c w) \/ (exists e w', c w = (Throw e, w') /\ unsent w').

(** A computation that answers. *)
Definition answers (c : M unit) : Prop :=
  forall w, unsent w -> answered_once (c w).

(** The services that stream, relay or poll; all others answer in one
    piece. *)
Definition long_running_services : list string :=
  [ "azureOpenaiSimulateur"; "vertexChat"; "openaiSimulateur";
    "assistantOpenaiAnalyse"; "assistantOpenaiAnalyseStreaming"; "openaiAnalyse";
    "streaming-openai-tts" ].

(** The five characters [escapeXml] rewrites. *)
Definition reserved (c : ascii) : bool :=
  Ascii.eqb c "&"%char || markup_delimiter c.

(** An upstream HTTP error with the given status, headers and body. *)
Definition http_error (code : Z) (hs : list (string * string)) (data : JsValue) : JsError :=
  {| e_name := "AxiosError";
     e_message := "Request failed with status code " ++ string_of_Z code;
     e_response := Some {| r_status := code; r_headers := hs; r_data := data |} |}.

Definition rejecting (e : JsError) : nat -> UpCall -> Result Answer := fun _ _ => Err e.

Definition audio_file : UploadedFile :=
  {| originalname := "question.webm"; buffer := "RIFF" |}.

(** A computation that makes at most [n] upstream calls and does not
    sleep. *)
Definition calls_at_most {A} (c : M A) (n : nat) : Prop :=
  forall w, exists cs,
    trace (snd (c w)) = (trace w ++ map Up cs)%list /\ (length cs <= n)%nat.

(** The two services that make more than one upstream call. *)
Definition assistant_services : list string :=
  [ "assistantOpenaiAnalyse"; "assistantOpenaiAnalyseStreaming" ].

(** The branches that refuse a request without [text] (server.js 323,
    400, 482, 501). *)
Definition text_guarded_services : list string :=
  [ "openai-tts"; "azureTTS-Scaleway"; "streaming-openai-tts"; "azureTextToSpeech" ].

(** The branches that test an API key first, with the variable they read
    and the message they answer (server.js 320-321, 596-597). *)
Definition key_guards : list (string * (string * string)) :=
  [ ("openai-tts", ("OPENAI_API_KEY_SIMULATEUR", "OpenAI API key missing"));
    ("elevenlabs", ("ELEVENLAB_API_KEY", "ElevenLabs API key missing")) ].

(** The parameters with another [styleDegree]. *)
Definition with_styleDegree (p : SSMLParams) (d : JsValue) : SSMLParams :=
  {| text := text p; voice := voice p; style := style p; styleDegree := d;
     rate := rate p; pitch := pitch p; volume := volume p;
     leadingSilenceMs := leadingSilenceMs p;
     trailingSilenceMs := trailingSilenceMs p |}.

(** The parameters the azureTTS-Scaleway branch passes (server.js
    422-427), for a given text and voice. *)
Definition plain_params (t v : string) : SSMLParams :=
  {| text := JStr t; voice := JStr v;
     style := JUndefined; styleDegree := JUndefined;
     rate := JUndefined; pitch := JUndefined; volume := JUndefined;
     leadingSilenceMs := JNum 0; trailingSilenceMs := JNum 0 |}.





(** The two branches that choose their voice with [allowed_voice]. *)
Definition speech_services : list string := [ "openai-tts"; "streaming-openai-tts" ].

(* ===================================================================== *)
(** * Properties *)
(* ===================================================================== *)

(** ** Strings *)

Lemma append_assoc (a b c : string) : (a ++ b) ++ c = a ++ (b ++ c).
Proof. induction a as [|x a IH]; simpl; [reflexivity | now rewrite IH]. Qed.

Lemma replaceAll_app (c : ascii) (by_ a b : string) :
  replaceAll c by_ (a ++ b) = replaceAll c by_ a ++ replaceAll c by_ b.
Proof.
  induction a as [|x a IH]; simpl; [reflexivity|].
  destruct (Ascii.eqb x c); rewrite IH; [now rewrite append_assoc | reflexivity].
Qed.

(** A string that ends with a character other than white space loses
    nothing at its end. *)
Lemma trimEnd_keeps (s : string) (c : ascii) :
  is_space c = false ->
  trimEnd (s ++ String c EmptyString) = s ++ String c EmptyString.
Proof.
  intros Hc. induction s as [|x s IH]; simpl.
  - now rewrite Hc.
  - rewrite IH. destruct s; reflexivity.
Qed.

Ltac right_nest := repeat (progress (simpl; rewrite ?append_assoc)).

(** ** escapeXml *)

(** The five chained replacements amount to one pass. *)
Lemma escapeXml_single_pass (s : string) : escapeXml s = escape_single_pass s.
Proof.
  unfold escapeXml. induction s as [|c r IH]; [reflexivity|].
  cbn [replaceAll escape_single_pass]. unfold entity.
  destruct (Ascii.eqb_spec c "&"%char) as [->|Hamp].
  { rewrite !replaceAll_app, IH. reflexivity. }
  destruct (Ascii.eqb_spec c "<"%char) as [->|Hlt].
  { cbn [replaceAll Ascii.eqb Bool.eqb]. rewrite !replaceAll_app, IH. reflexivity. }
  cbn [replaceAll].
  destruct (Ascii.eqb_spec c "<"%char) as [|_]; [contradiction|].
  destruct (Ascii.eqb_spec c ">"%char) as [->|Hgt].
  { cbn [replaceAll Ascii.eqb Bool.eqb]. rewrite !replaceAll_app, IH. reflexivity. }
  cbn [replaceAll].
  destruct (Ascii.eqb_spec c ">"%char) as [|_]; [contradiction|].
  destruct (Ascii.eqb_spec c "034"%char) as [->|Hdq].
  { cbn [replaceAll Ascii.eqb Bool.eqb]. rewrite !replaceAll_app, IH. reflexivity. }
  cbn [replaceAll].
  destruct (Ascii.eqb_spec c "034"%char) as [|_]; [contradiction|].
  destruct (Ascii.eqb_spec c "039"%char) as [->|Hsq].
  { cbn [replaceAll Ascii.eqb Bool.eqb]. rewrite IH. reflexivity. }
  cbn [replaceAll].
  destruct (Ascii.eqb_spec c "039"%char) as [|_]; [contradiction|].
  rewrite IH. reflexivity.
Qed.

Lemma all_chars_app (f : ascii -> bool) (a b : string) :
  all_chars f (a ++ b) = all_chars f a && all_chars f b.
Proof.
  induction a as [|x a IH]; simpl; [reflexivity|]. now rewrite IH, andb_assoc.
Qed.

(** The escaped text holds no character that opens or closes markup. *)
Lemma escapeXml_leaves_no_delimiter (s : string) :
  all_chars (fun c => negb (markup_delimiter c)) (escapeXml s) = true.
Proof.
  rewrite escapeXml_single_pass.
  induction s as [|c r IH]; [reflexivity|].
  cbn [escape_single_pass]. rewrite all_chars_app, IH, andb_true_r.
  unfold entity.
  destruct (Ascii.eqb c "&"%char); [reflexivity|].
  destruct (Ascii.eqb c "<"%char) eqn:Elt; [reflexivity|].
  destruct (Ascii.eqb c ">"%char) eqn:Egt; [reflexivity|].
  destruct (Ascii.eqb c "034"%char) eqn:Edq; [reflexivity|].
  destruct (Ascii.eqb c "039"%char) eqn:Esq; [reflexivity|].
  cbn [all_chars]. unfold markup_delimiter. now rewrite Elt, Egt, Edq, Esq.
Qed.

Example escapeXml_twice : escapeXml (escapeXml "&") = "&amp;amp;".
Proof. reflexivity. Qed.

(** ** buildSSML *)

Lemma trimStart_nl (z : string) : trimStart (nl ++ z) = trimStart z.
Proof. reflexivity. Qed.

Lemma ssml_head_first (p : SSMLParams) (locale : string) :
  exists r, ssml_head p locale = String "<"%char r.
Proof. unfold ssml_head. simpl. eexists. reflexivity. Qed.

Lemma ssml_tail_last (p : SSMLParams) :
  exists t, ssml_tail p = t ++ String ">"%char EmptyString.
Proof.
  unfold ssml_tail.
  exists (nl ++ "      " ++ closeProsody p ++ nl ++ "    " ++ expressClose p ++ nl
          ++ "  </voice>" ++ nl ++ "</speak").
  right_nest. reflexivity.
Qed.

(** [trim] only removes the line break that opens the template. *)
Lemma trim_template (p : SSMLParams) (locale escaped : string) :
  trim (nl ++ ssml_head p locale ++ escaped ++ ssml_tail p)
  = ssml_head p locale ++ escaped ++ ssml_tail p.
Proof.
  unfold trim. rewrite trimStart_nl.
  destruct (ssml_head_first p locale) as [r Hr].
  destruct (ssml_tail_last p) as [t Ht].
  rewrite Hr. cbn [append trimStart]. change (is_space "<"%char) with false. cbv iota.
  change (String "<"%char (r ++ escaped ++ ssml_tail p))
    with (String "<"%char r ++ escaped ++ ssml_tail p).
  rewrite Ht, <- !append_assoc.
  apply trimEnd_keeps. reflexivity.
Qed.

Lemma buildSSML_document (p : SSMLParams) (s v : string) :
  text p = JStr s -> voice p = JStr v ->
  buildSSML p = Ok (ssml_head p (substring 0 5 v) ++ escapeXml s ++ ssml_tail p).
Proof.
  intros Ht Hv. unfold buildSSML. rewrite Ht, Hv. cbn [substring_of escapeXml_of].
  now rewrite trim_template.
Qed.

(** Without a string for [voice] or [text] no document is built. *)
Lemma buildSSML_throws (p : SSMLParams) :
  (forall v, voice p <> JStr v) \/ (forall s, text p <> JStr s) ->
  exists e, buildSSML p = Err e.
Proof.
  intros [H|H]; unfold buildSSML.
  - destruct (voice p) eqn:E; try (eexists; reflexivity). now destruct (H s).
  - destruct (substring_of (voice p)); [|eexists; reflexivity].
    destruct (text p) eqn:E; try (eexists; reflexivity). now destruct (H s).
Qed.

(** C2. Whatever the other parameters are, [buildSSML] puts the text into
    a context that does not depend on it, and puts it there escaped in a
    single pass: each of the five reserved characters is replaced by its
    entity once, the ampersands of those entities are not escaped again,
    and no call embeds the text unescaped. *)
Theorem buildSSML_escapes_text_once (p : SSMLParams) (v : string) :
  voice p = JStr v ->
  exists before after,
    forall s, buildSSML (with_text p (JStr s))
              = Ok (before ++ escape_single_pass s ++ after).
Proof.
  intros Hv.
  exists (ssml_head p (substring 0 5 v)), (ssml_tail p). intros s.
  rewrite (@buildSSML_document (with_text p (JStr s)) s v) by (reflexivity || exact Hv).
  now rewrite escapeXml_single_pass.
Qed.

Lemma buildSSML_escapes_text_once_witness :
  voice example_params = JStr "fr-FR-RemyMultilingualNeural" /\
  exists before after,
    forall s, buildSSML (with_text example_params (JStr s))
              = Ok (before ++ escape_single_pass s ++ after).
Proof.
  split; [reflexivity|].
  apply (@buildSSML_escapes_text_once example_params "fr-FR-RemyMultilingualNeural").
  reflexivity.
Defined.







(** A quote in the voice identifier closes the attribute it is put in. *)
Example buildSSML_voice_unescaped :
  buildSSML {| text := JStr "hi"; voice := JStr ("en-US" ++ dq ++ "><x a=" ++ dq);
               style := JUndefined; styleDegree := JUndefined; rate := JUndefined;
               pitch := JUndefined; volume := JUndefined;
               leadingSilenceMs := JNum 0; trailingSilenceMs := JNum 0 |}
  = Ok ("<speak version=" ++ dq ++ "1.0" ++ dq ++ " " ++ ns ++ " xml:lang=" ++ dq ++ "en-US" ++ dq ++ ">" ++ nl
        ++ "  <voice name=" ++ dq ++ "en-US" ++ dq ++ "><x a=" ++ dq ++ dq ++ ">" ++ nl
        ++ "    <mstts:silence type=" ++ dq ++ "Leading" ++ dq ++ " value=" ++ dq ++ "0ms" ++ dq ++ "/>" ++ nl
        ++ "    <mstts:silence type=" ++ dq ++ "Tailing" ++ dq ++ " value=" ++ dq ++ "0ms" ++ dq ++ "/>" ++ nl
        ++ "    " ++ nl
        ++ "      " ++ nl
        ++ "        hi" ++ nl
        ++ "      " ++ nl
        ++ "    " ++ nl
        ++ "  </voice>" ++ nl
        ++ "</speak>").
Proof. reflexivity. Qed.

(** ** The router *)

Lemma trim_of_error (v : JsValue) (e : JsError) :
  trim_of v = Err e -> e_response e = None.
Proof. destruct v; simpl; intros H; inversion H; reflexivity. Qed.

Lemma trim_lower_error (v : JsValue) (e : JsError) :
  trim_lower v = Err e -> e_response e = None.
Proof.
  unfold trim_lower. destruct (trim_of _) eqn:E; intros H; inversion H; subst.
  eapply trim_of_error; eauto.
Qed.

Lemma scaleway_voice_error (l v : JsValue) (e : JsError) :
  scaleway_voice l v = Err e -> e_response e = None.
Proof.
  unfold scaleway_voice. destruct (trim_lower l) eqn:El.
  - destruct (truthy v); [|discriminate].
    destruct (trim_of v) eqn:Ev; [discriminate|].
    intros H; inversion H; subst. eapply trim_of_error; eauto.
  - intros H; inversion H; subst. eapply trim_lower_error; eauto.
Qed.

(** C7. A service name that is none of the fourteen the router handles is
    answered with status 400 and the body [{error: "Invalid service"}],
    and nothing is asked of any upstream service. *)
Theorem invalid_service_rejected
    (env : string -> option string) (upstream : nat -> UpCall -> Result Answer)
    (fuel : nat) (service : string) (body : Body) :
  ~ In service services ->
  serve env upstream fuel service body
  = (Val tt, {| res := json_response 400 (error_body "Invalid service"); trace := [] |}).
Proof.
  intros Hnot. unfold serve, api_service, dispatch.
  repeat match goal with
         | |- context [String.eqb service ?n] =>
             destruct (String.eqb_spec service n) as [->|_];
             [exfalso; apply Hnot; simpl; tauto|]
         end.
  reflexivity.
Qed.

Lemma invalid_service_rejected_witness :
  ~ In "transcribeAll" services /\
  serve no_env no_upstream 0 "transcribeAll" [("text", JStr "Bonjour")]
  = (Val tt, {| res := json_response 400 (error_body "Invalid service"); trace := [] |}).
Proof.
  assert (H : ~ In "transcribeAll" services).
  { simpl. intros H. repeat (destruct H as [H|H]; [discriminate H|]). exact H. }
  split; [exact H|].
  apply (@invalid_service_rejected no_env no_upstream 0 "transcribeAll"
           [("text", JStr "Bonjour")] H).
Defined.

(** C9. With a non-empty text and both credentials set, the
    azureTTS-Scaleway branch throws before it builds the document or posts
    anything: the router's catch block answers 500 with its generic
    "API request error" body and no upstream call is made.  When the
    language and voice fields are strings or absent, the exception is the
    [ReferenceError] of the undeclared [style]. *)
Theorem azureTTS_Scaleway_always_fails
    (env : string -> option string) (upstream : nat -> UpCall -> Result Answer)
    (fuel : nat) (body : Body) :
  truthy (field body "text") = true ->
  truthy (process_env env "AZURE_TTS_KEY_AI_SERVICES") = true ->
  truthy (process_env env "AZURE_REGION_AI_SERVICES") = true ->
  exists message,
    serve env upstream fuel "azureTTS-Scaleway" body
    = (Val tt, {| res := json_response 500 (api_request_error_body "azureTTS-Scaleway" message);
                  trace := [] |})
    /\ (forall voice_, scaleway_voice (field body "selectedLanguage")
                                      (field body "selectedVoice") = Ok voice_ ->
        message = "style is not defined").
Proof.
  intros Htext Hkey Hregion.
  unfold serve, api_service, dispatch, try_catch. cbn [String.eqb Ascii.eqb Bool.eqb].
  unfold azureTTS_Scaleway. rewrite Htext, Hkey, Hregion. cbn [negb orb].
  destruct (scaleway_voice _ _) as [voice_|e] eqn:Ev.
  - exists "style is not defined". split; [reflexivity|]. reflexivity.
  - exists (e_message e). split; [|discriminate].
    pose proof (scaleway_voice_error _ _ Ev) as Hr.
    unfold bind, lift, throw, api_request_error, status_or_500, requestId_of, response_data.
    rewrite Hr. reflexivity.
Qed.

Lemma azureTTS_Scaleway_always_fails_witness :
  truthy (field italien_request "text") = true /\
  truthy (process_env scaleway_env "AZURE_TTS_KEY_AI_SERVICES") = true /\
  truthy (process_env scaleway_env "AZURE_REGION_AI_SERVICES") = true /\
  exists message,
    serve scaleway_env no_upstream 0 "azureTTS-Scaleway" italien_request
    = (Val tt, {| res := json_response 500 (api_request_error_body "azureTTS-Scaleway" message);
                  trace := [] |})
    /\ (forall voice_, scaleway_voice (field italien_request "selectedLanguage")
                                      (field italien_request "selectedVoice") = Ok voice_ ->
        message = "style is not defined").
Proof.
  repeat (split; [reflexivity|]).
  apply (@azureTTS_Scaleway_always_fails scaleway_env no_upstream 0 italien_request);
    reflexivity.
Defined.

(** *** Computations that leave the trace alone *)

Lemma quiet_ret {A} (a : A) : quiet (ret a).
Proof. intros w. reflexivity. Qed.

Lemma quiet_throw {A} (e : JsError) : quiet (@throw A e).
Proof. intros w. reflexivity. Qed.

Lemma quiet_bind {A B} (c : M A) (k : A -> M B) :
  quiet c -> (forall a, quiet (k a)) -> quiet (bind c k).
Proof.
  intros Hc Hk w. unfold bind. specialize (Hc w).
  destruct (c w) as [[a| e |] w']; simpl in *; try assumption.
  now rewrite Hk.
Qed.

Lemma quiet_try_catch {A} (c : M A) (h : JsError -> M A) :
  quiet c -> (forall e, quiet (h e)) -> quiet (try_catch c h).
Proof.
  intros Hc Hh w. unfold try_catch. specialize (Hc w).
  destruct (c w) as [[a| e |] w']; simpl in *; try assumption.
  now rewrite Hh.
Qed.

Lemma quiet_update (f : Response -> Response) : quiet (update f).
Proof. intros w. reflexivity. Qed.

Lemma quiet_setHeader (k v : string) : quiet (setHeader k v).
Proof. intros w. unfold setHeader. now destruct (headersSent (res w)). Qed.

Lemma quiet_lift {A} (r : Result A) : quiet (lift r).
Proof. destruct r; intros w; reflexivity. Qed.

Lemma quiet_member (v : JsValue) (k : string) : quiet (member v k).
Proof. unfold member. destruct (nullish v); intros w; reflexivity. Qed.

Lemma quiet_element (v : JsValue) (i : nat) : quiet (element v i).
Proof. unfold element. destruct (nullish v); intros w; reflexivity. Qed.

Lemma quiet_if {A} (b : bool) (c d : M A) : quiet c -> quiet d -> quiet (if b then c else d).
Proof. now destruct b. Qed.

Lemma quiet_for_each {A} (items : list A) (body : A -> M unit) :
  (forall x, quiet (body x)) -> quiet (for_each items body).
Proof.
  intros Hb. induction items as [|x items IH]; simpl.
  - apply quiet_ret.
  - apply quiet_bind; auto.
Qed.

Create HintDb quiet.
#[export] Hint Resolve quiet_ret quiet_throw quiet_update quiet_setHeader quiet_lift
  quiet_member quiet_element : quiet.

(** Structural descent through binds, handlers and branches; the leaves
    are closed from the hint database. *)
Ltac quiet :=
  repeat first
    [ progress intros
    | solve [auto with quiet]
    | apply quiet_bind
    | apply quiet_try_catch
    | apply quiet_for_each
    | match goal with
      | |- quiet (if ?b then _ else _) => destruct b
      | |- quiet (match ?x with _ => _ end) => destruct x
      | |- quiet (fun w => _) => intros ?; reflexivity
      | |- quiet ?c => progress (unfold status, write, end_, flushHeaders, respond,
                                  json, send, relay_raw, for_await, write_delta,
                                  read_headersSent, read_headers)
      end ].

Lemma quiet_json (v : JsValue) : quiet (json v).
Proof. quiet. Qed.

Lemma quiet_send (v : JsValue) : quiet (send v).
Proof. quiet. Qed.

Lemma quiet_relay_raw (src : Result (list JsValue * option JsError)) : quiet (relay_raw src).
Proof. quiet. Qed.

#[export] Hint Resolve quiet_json quiet_send quiet_relay_raw : quiet.

(** After one upstream call and a quiet rest, the trace holds that call. *)
Lemma trace_await_quiet {A} upstream (c : UpCall) (k : Answer -> M A)
    (h : JsError -> M A) (w : World) :
  (forall a, quiet (k a)) -> (forall e, quiet (h e)) ->
  trace (snd (try_catch (a <- await upstream c ;; k a) h w)) = (trace w ++ [Up c])%list.
Proof.
  intros Hk Hh. unfold try_catch, bind, await.
  destruct (upstream (length (trace w)) c) as [a|e]; simpl.
  - specialize (Hk a {| res := res w; trace := trace w ++ [Up c] |}).
    destruct (k a _) as [[x|e|] w']; simpl in *; try assumption.
    now rewrite Hh.
  - now rewrite Hh.
Qed.

Lemma trace_try_catch_quiet {A} (c : M A) (h : JsError -> M A) (w : World) :
  (forall e, quiet (h e)) -> trace (snd (try_catch c h w)) = trace (snd (c w)).
Proof.
  intros Hh. unfold try_catch. destruct (c w) as [[a|e|] w']; simpl; try reflexivity.
  apply Hh.
Qed.

Lemma quiet_api_request_error (service : string) (e : JsError) :
  quiet (api_request_error service e).
Proof. unfold api_request_error. quiet. Qed.

#[export] Hint Resolve quiet_api_request_error : quiet.

(** The POST of the azureTTS-Scaleway branch is never reached, whatever
    the request and the environment. *)
Lemma azureTTS_Scaleway_never_posts
    (env : string -> option string) (upstream : nat -> UpCall -> Result Answer)
    (fuel : nat) (body : Body) :
  calls (snd (serve env upstream fuel "azureTTS-Scaleway" body)) = [].
Proof.
  unfold calls, serve, api_service. rewrite trace_try_catch_quiet by quiet.
  unfold dispatch. cbn [String.eqb Ascii.eqb Bool.eqb].
  unfold azureTTS_Scaleway.
  destruct (truthy (field body "text")); cbn [negb].
  2:{ rewrite quiet_bind; [reflexivity | quiet | quiet]. }
  destruct (negb (truthy (process_env env "AZURE_TTS_KEY_AI_SERVICES"))
            || negb (truthy (process_env env "AZURE_REGION_AI_SERVICES"))).
  { rewrite quiet_bind; [reflexivity | quiet | quiet]. }
  destruct (scaleway_voice _ _) as [v|e]; reflexivity.
Qed.

(** ** Voice and language selection *)




(** The scenario of the specification, run: the call carries "fable" and
    the bytes come back as [audio/mpeg]. *)
Example bogus_voice_scenario :
  serve openai_env (always (Data mp3_answer)) 0 "openai-tts" bogus_request
  = (Val tt, {| res := audio_response (JBuffer "ID3");
                trace := [Up (openai_tts_call (JStr "sk-test") (JStr "Bonjour") "fable")] |}).
Proof. reflexivity. Qed.

(** A selector that is not a string has no [trim]: the router's catch
    block answers, and nothing is asked upstream. *)
Example numeric_voice_throws :
  serve openai_env no_upstream 0 "openai-tts" [("text", JStr "Bonjour"); ("selectedVoice", JNum 5)]
  = (Val tt, {| res := json_response 500
                         (api_request_error_body "openai-tts" "trim is not a function");
                trace := [] |}).
Proof. reflexivity. Qed.

(** The azureTextToSpeech branch looks the selector up in an object: the
    fallback applies unless the selector names a member every object
    inherits. *)
Example azureTextToSpeech_fallback :
  js_or (lookup ttsVoiceMap "bogus") (JStr "fable") = JStr "fable" /\
  js_or (lookup ttsVoiceMap "constructor") (JStr "fable") = JBuiltin "constructor".
Proof. split; reflexivity. Qed.





(** Names every object inherits count as known to the table. *)
Example elevenlabs_inherited_name :
  calls (snd (serve (env_of [("ELEVENLAB_API_KEY", "xi")]) no_upstream 0 "elevenlabs"
                [("text", JStr "Hola"); ("selectedLanguage", JStr "constructor")]))
  = [AxiosPost "https://api.elevenlabs.io/v1/text-to-speech/function Object() { [native code] }/stream"
       (JObj [("text", JStr "Hola");
              ("model_id", JStr "eleven_flash_v2_5");
              ("voice_settings", JObj [("stability", JFrac "0.6");
                                       ("similarity_boost", JFrac "0.7");
                                       ("style", JFrac "0.1")])])
       [("xi-api-key", JStr "xi"); ("Content-Type", JStr "application/json")]
       "arraybuffer"].
Proof. reflexivity. Qed.

(** The scenario of the specification and its variants in spelling. *)
Example elevenlabs_known_language :
  trim_lower (JStr "  FRANÇAIS ") = Ok "français" /\
  lookup elevenVoiceMap "français" = JStr "1a3lMdKLUcfcMtvN772u".
Proof. split; reflexivity. Qed.

Example elevenlabs_without_key :
  serve no_env no_upstream 0 "elevenlabs" italien_request
  = (Val tt, {| res := json_response 500 (error_body "ElevenLabs API key missing");
                trace := [] |}).
Proof. reflexivity. Qed.

(** ** Running a handler step by step *)

Lemma run_bind_val {A B} (c : M A) (k : A -> M B) (w w' : World) (a : A) :
  c w = (Val a, w') -> bind c k w = k a w'.
Proof. unfold bind. now intros ->. Qed.

Lemma run_bind_throw {A B} (c : M A) (k : A -> M B) (w w' : World) (e : JsError) :
  c w = (Throw e, w') -> bind c k w = (Throw e, w').
Proof. unfold bind. now intros ->. Qed.

Lemma run_catch_val {A} (c : M A) (h : JsError -> M A) (w w' : World) (a : A) :
  c w = (Val a, w') -> try_catch c h w = (Val a, w').
Proof. unfold try_catch. now intros ->. Qed.

Lemma run_catch_throw {A} (c : M A) (h : JsError -> M A) (w w' : World) (e : JsError) :
  c w = (Throw e, w') -> try_catch c h w = h e w'.
Proof. unfold try_catch. now intros ->. Qed.

Lemma run_await upstream (c : UpCall) (a : Answer) (w : World) :
  upstream (length (trace w)) c = Ok a ->
  await upstream c w = (Val a, {| res := res w; trace := trace w ++ [Up c] |}).
Proof. unfold await. now intros ->. Qed.

Lemma run_await_rejected upstream (c : UpCall) (e : JsError) (w : World) :
  upstream (length (trace w)) c = Err e ->
  await upstream c w = (Throw e, {| res := res w; trace := trace w ++ [Up c] |}).
Proof. unfold await. now intros ->. Qed.

Lemma run_for_await (src : Result (list JsValue * option JsError))
    (body : JsValue -> M unit) (items : list JsValue) (w w' : World) :
  src = Ok (items, None) ->
  for_each items body w = (Val tt, w') ->
  for_await src body w = (Val tt, w').
Proof.
  intros -> H. unfold for_await. erewrite run_bind_val by exact H. reflexivity.
Qed.

Lemma run_for_await_throw (src : Result (list JsValue * option JsError))
    (body : JsValue -> M unit) (items : list JsValue) (e : JsError) (w w' : World) :
  src = Ok (items, Some e) ->
  for_each items body w = (Val tt, w') ->
  for_await src body w = (Throw e, w').
Proof.
  intros -> H. unfold for_await. erewrite run_bind_val by exact H. reflexivity.
Qed.

(** One step of a handler: the first computation of a bind returns or
    throws, as [tac] shows. *)
Ltac step_by tac :=
  first [ erewrite run_bind_val by tac | erewrite run_bind_throw by tac ];
  cbv beta;
  cbn [res trace statusCode headers headersSent written ended start fresh_response
       wrote app length Nat.ltb Nat.leb].
Ltac step := step_by ltac:(reflexivity).

(** ** The stream loops *)

Lemma wrote_nil (w : World) : headersSent (res w) = true -> wrote w [] = w.
Proof.
  destruct w as [[c h s wr e] t]. simpl. intros ->. unfold wrote. simpl.
  now rewrite app_nil_r.
Qed.

Lemma wrote_wrote (w : World) (a b : list Chunk) :
  wrote (wrote w a) b = wrote w (a ++ b).
Proof. unfold wrote. simpl. now rewrite app_assoc. Qed.

Lemma run_write (c : Chunk) (w : World) :
  ended (res w) = 0 -> write c w = (Val tt, wrote w [c]).
Proof. intros H. unfold write, update, wrote. now rewrite H. Qed.

Lemma relay_step (k : string) (wrap path : JsValue -> JsValue) (x : JsValue) (w : World) :
  nullish x = false -> ended (res w) = 0 -> headersSent (res w) = true ->
  (y <- member x k ;; write_delta wrap (path y)) w
  = (Val tt, wrote w (delta_frames wrap (fun x => path (get x k)) [x])).
Proof.
  intros Hx He Hs. unfold member. rewrite Hx. step.
  unfold write_delta, delta_frames. cbn [map filter].
  destruct (truthy (path (get x k))).
  - now apply run_write.
  - cbn [map]. now rewrite wrote_nil.
Qed.

(** The loop [for await (const x of ...) { const delta = x.k?...;
    if (delta) res.write(frame) }] over items that are objects: one frame
    for each truthy delta, in the order of the items. *)
Lemma relay_loop (k : string) (wrap path : JsValue -> JsValue) (items : list JsValue) :
  Forall (fun x => nullish x = false) items ->
  forall w, ended (res w) = 0 -> headersSent (res w) = true ->
  for_each items (fun x => y <- member x k ;; write_delta wrap (path y)) w
  = (Val tt, wrote w (delta_frames wrap (fun x => path (get x k)) items)).
Proof.
  induction 1 as [|x items Hx _ IH]; intros w He Hs.
  - unfold delta_frames. simpl. now rewrite wrote_nil.
  - cbn [for_each].
    erewrite run_bind_val by (now apply relay_step).
    rewrite IH by (simpl; auto). rewrite wrote_wrote.
    unfold delta_frames. cbn [map filter].
    destruct (truthy (path (get x k))); reflexivity.
Qed.


(** ** The SSE branches, run to their end *)

Section Runs.

Variable env : string -> option string.
Variable upstream : nat -> UpCall -> Result Answer.
Variable fuel : nat.
Variable body : Body.

Lemma openaiSimulateur_run (stream : Answer) (events : list JsValue)
    (ending : option JsError) :
  upstream 0 (ChatCompletionsCreate (field body "model") (field body "messages")) = Ok stream ->
  stream_items stream = Ok (events, ending) ->
  Forall (fun x => nullish x = false) events ->
  serve env upstream fuel "openaiSimulateur" body
  = match ending with
    | None =>
        (Val tt,
         {| res := sse_response 200 sse_headers
                     (delta_frames choices_envelope chat_delta events
                      ++ [usage_frame stream; DONE]) 1;
            trace := [Up (ChatCompletionsCreate (field body "model") (field body "messages"))] |})
    | Some e =>
        (Throw ERR_HTTP_HEADERS_SENT,
         {| res := sse_response (status_or_500 e) sse_headers
                     (delta_frames choices_envelope chat_delta events) 0;
            trace := [Up (ChatCompletionsCreate (field body "model") (field body "messages"))] |})
    end.
Proof.
  intros Hup Hitems Hobj.
  unfold serve, api_service, dispatch. cbn [String.eqb Ascii.eqb Bool.eqb].
  unfold openaiSimulateur.
  destruct ending as [e|].
  - erewrite run_catch_throw.
    2:{ do 3 step. step_by ltac:(apply run_await; exact Hup).
        step_by ltac:(eapply run_for_await_throw;
                      [exact Hitems
                      |apply (relay_loop "choices" choices_envelope
                                (fun c => get (get (at_ c 0) "delta") "content"));
                       [exact Hobj | reflexivity | reflexivity]]).
        reflexivity. }
    reflexivity.
  - erewrite run_catch_val.
    2:{ do 3 step. step_by ltac:(apply run_await; exact Hup).
        step_by ltac:(eapply run_for_await;
                      [exact Hitems
                      |apply (relay_loop "choices" choices_envelope
                                (fun c => get (get (at_ c 0) "delta") "content"));
                       [exact Hobj | reflexivity | reflexivity]]).
        do 2 step. reflexivity. }
    unfold sse_response, usage_frame. rewrite <- app_assoc. reflexivity.
Qed.

(** openaiAnalyse: on success the delta frames and the sentinel; when the
    stream fails, the delta frames and the fixed error frame, and the
    sink is closed without the sentinel. *)
Lemma openaiAnalyse_run (stream : Answer) (events : list JsValue)
    (ending : option JsError) :
  upstream 0 (ChatCompletionsCreate (field body "model") (field body "messages")) = Ok stream ->
  stream_items stream = Ok (events, ending) ->
  Forall (fun x => nullish x = false) events ->
  serve env upstream fuel "openaiAnalyse" body
  = (Val tt,
     {| res := sse_response 200 openaiAnalyse_headers
                 (delta_frames delta_envelope chat_delta events
                  ++ [match ending with
                      | None => DONE
                      | Some _ => error_frame "Errore durante lo streaming AI."
                      end]) 1;
        trace := [Up (ChatCompletionsCreate (field body "model") (field body "messages"))] |}).
Proof.
  intros Hup Hitems Hobj.
  unfold serve, api_service, dispatch. cbn [String.eqb Ascii.eqb Bool.eqb].
  unfold openaiAnalyse.
  erewrite run_catch_val; [reflexivity|].
  do 5 step.
  destruct ending as [e|].
  - erewrite run_catch_throw.
    2:{ step_by ltac:(apply run_await; exact Hup).
        step_by ltac:(eapply run_for_await_throw;
                      [exact Hitems
                      |apply (relay_loop "choices" delta_envelope
                                (fun c => get (get (at_ c 0) "delta") "content"));
                       [exact Hobj | reflexivity | reflexivity]]).
        reflexivity. }
    step. reflexivity.
  - erewrite run_catch_val; [reflexivity|].
    step_by ltac:(apply run_await; exact Hup).
    step_by ltac:(eapply run_for_await;
                  [exact Hitems
                  |apply (relay_loop "choices" delta_envelope
                            (fun c => get (get (at_ c 0) "delta") "content"));
                   [exact Hobj | reflexivity | reflexivity]]).
    step. reflexivity.
Qed.

(** openaiAnalyse when the call itself is rejected. *)
Lemma openaiAnalyse_rejected (e : JsError) :
  upstream 0 (ChatCompletionsCreate (field body "model") (field body "messages")) = Err e ->
  serve env upstream fuel "openaiAnalyse" body
  = (Val tt,
     {| res := sse_response 200 openaiAnalyse_headers
                 [error_frame "Errore durante lo streaming AI."] 1;
        trace := [Up (ChatCompletionsCreate (field body "model") (field body "messages"))] |}).
Proof.
  intros Hup.
  unfold serve, api_service, dispatch. cbn [String.eqb Ascii.eqb Bool.eqb].
  unfold openaiAnalyse.
  erewrite run_catch_val; [reflexivity|].
  do 5 step.
  erewrite run_catch_throw.
  2:{ step_by ltac:(apply run_await_rejected; exact Hup). reflexivity. }
  step. reflexivity.
Qed.

(** vertexChat in streaming mode: the catch block of the branch finds the
    headers sent and ends the stream with an error frame and the
    sentinel. *)
Lemma vertexChat_stream_run (prompt : string) (result : Answer)
    (items : list JsValue) (ending : option JsError) :
  promptText (field body "messages") = Ok prompt ->
  is_false (default_to (JBool true) (field body "stream")) = false ->
  upstream 0 (VertexGenerateContentStream prompt) = Ok result ->
  member_stream result "stream" = Ok (items, ending) ->
  Forall (fun x => nullish x = false) items ->
  serve env upstream fuel "vertexChat" body
  = (Val tt,
     {| res := sse_response 200 sse_headers
                 (delta_frames delta_envelope vertex_delta items
                  ++ match ending with
                     | None => [DONE]
                     | Some e => [error_frame (e_message e); DONE]
                     end) 1;
        trace := [Up (VertexGenerateContentStream prompt)] |}).
Proof.
  intros Hprompt Hmode Hup Hitems Hobj.
  unfold serve, api_service, dispatch. cbn [String.eqb Ascii.eqb Bool.eqb].
  unfold vertexChat. rewrite Hprompt, Hmode. cbn [lift].
  erewrite run_catch_val; [reflexivity|].
  step.
  destruct ending as [e|].
  - erewrite run_catch_throw.
    2:{ do 3 step. step_by ltac:(apply run_await; exact Hup).
        step_by ltac:(eapply run_for_await_throw;
                      [exact Hitems
                      |apply (relay_loop "candidates" delta_envelope
                                (fun c => get (at_ (get (get (at_ c 0) "content") "parts") 0)
                                              "text"));
                       [exact Hobj | reflexivity | reflexivity]]).
        reflexivity. }
    step. cbn [negb]. do 2 step.
    unfold sse_response, end_, update, error_frame.
    cbn [res trace statusCode headers headersSent written ended].
    rewrite <- app_assoc. reflexivity.
  - erewrite run_catch_val; [reflexivity|].
    do 3 step. step_by ltac:(apply run_await; exact Hup).
    step_by ltac:(eapply run_for_await;
                  [exact Hitems
                  |apply (relay_loop "candidates" delta_envelope
                            (fun c => get (at_ (get (get (at_ c 0) "content") "parts") 0)
                                          "text"));
                   [exact Hobj | reflexivity | reflexivity]]).
    step. reflexivity.
Qed.


Lemma world_eta (w : World) : {| res := res w; trace := trace w ++ [] |} = w.
Proof. destruct w. simpl. now rewrite app_nil_r. Qed.

(** Appending the messages of a follow-up request to its thread. *)
Lemma append_messages (threadId : JsValue) (msgs : list JsValue) :
  forall w,
  (forall i m, nth_error msgs i = Some m ->
     exists a, upstream (length (trace w) + i) (ThreadsMessagesCreate threadId m) = Ok a) ->
  for_each msgs (fun msg => await upstream (ThreadsMessagesCreate threadId msg) ;; ret tt) w
  = (Val tt, {| res := res w;
                trace := trace w ++ map (fun m => Up (ThreadsMessagesCreate threadId m)) msgs |}).
Proof.
  induction msgs as [|m msgs IH]; intros w Hup.
  - simpl. now rewrite world_eta.
  - cbn [for_each map].
    destruct (Hup 0 m eq_refl) as [a Ha]. rewrite Nat.add_0_r in Ha.
    erewrite run_bind_val.
    2:{ erewrite run_bind_val by (apply run_await; exact Ha). reflexivity. }
    rewrite IH.
    + cbn [res trace]. now rewrite <- app_assoc.
    + intros i m' Hm'. cbn [trace]. specialize (Hup (S i) m' Hm').
      rewrite length_app. simpl. now rewrite <- Nat.add_assoc.
Qed.

Lemma assistantStreaming_new_thread_run (created stream : Answer)
    (events : list JsValue) (ending : option JsError) :
  truthy (field body "threadId") = false ->
  upstream 0 (ThreadsCreate (field body "messages")) = Ok created ->
  nullish (as_data created) = false ->
  upstream 1 (ThreadsRunsCreateAndStream (get (as_data created) "id") (process_env env "OPENAI_ASSISTANTID"))
  = Ok stream ->
  stream_items stream = Ok (events, ending) ->
  Forall (fun x => nullish x = false) events ->
  let threadId := get (as_data created) "id" in
  let effects := [Up (ThreadsCreate (field body "messages"));
                  Up (ThreadsRunsCreateAndStream threadId (process_env env "OPENAI_ASSISTANTID"))] in
  let first := frame (stringified (obj1 "threadId" threadId)) in
  serve env upstream fuel "assistantOpenaiAnalyseStreaming" body
  = match ending with
    | None =>
        (Val tt,
         {| res := sse_response 200 sse_headers
                     (first :: delta_frames delta_envelope assistant_delta events ++ [DONE]) 1;
            trace := effects |})
    | Some e =>
        (Throw ERR_HTTP_HEADERS_SENT,
         {| res := sse_response (status_or_500 e) sse_headers
                     (first :: delta_frames delta_envelope assistant_delta events) 0;
            trace := effects |})
    end.
Proof.
  intros Hnew Hcreate Hthread Hup Hitems Hobj threadId effects first.
  unfold serve, api_service, dispatch. cbn [String.eqb Ascii.eqb Bool.eqb].
  unfold assistantOpenaiAnalyseStreaming. rewrite Hnew. cbn [negb].
  assert (Hprefix :
    forall k : JsValue -> M unit,
      (thread <- (created0 <- await upstream (ThreadsCreate (field body "messages")) ;;
                  ret (as_data created0)) ;; k thread) start
      = k (as_data created) {| res := fresh_response;
                               trace := [Up (ThreadsCreate (field body "messages"))] |}).
  { intros k. erewrite run_bind_val; [reflexivity|].
    step_by ltac:(apply run_await; exact Hcreate). reflexivity. }
  destruct ending as [e|].
  - erewrite run_catch_throw.
    2:{ rewrite Hprefix. do 3 step. unfold member at 1 2. rewrite Hthread.
        do 2 step. step_by ltac:(apply run_await; exact Hup).
        step_by ltac:(eapply run_for_await_throw;
                      [exact Hitems
                      |apply (relay_loop "data" delta_envelope
                                (fun c => get (get c "delta") "content"));
                       [exact Hobj | reflexivity | reflexivity]]).
        reflexivity. }
    reflexivity.
  - erewrite run_catch_val; [reflexivity|].
    rewrite Hprefix. do 3 step. unfold member at 1 2. rewrite Hthread.
    do 2 step. step_by ltac:(apply run_await; exact Hup).
    step_by ltac:(eapply run_for_await;
                  [exact Hitems
                  |apply (relay_loop "data" delta_envelope
                            (fun c => get (get c "delta") "content"));
                   [exact Hobj | reflexivity | reflexivity]]).
    step. reflexivity.
Qed.


Lemma assistantStreaming_existing_thread_run (msgs : list JsValue) (stream : Answer)
    (events : list JsValue) (ending : option JsError) :
  truthy (field body "threadId") = true ->
  iterable (field body "messages") = Ok msgs ->
  (forall i m, nth_error msgs i = Some m ->
     exists a, upstream i (ThreadsMessagesCreate (field body "threadId") m) = Ok a) ->
  upstream (length msgs)
    (ThreadsRunsCreateAndStream (field body "threadId") (process_env env "OPENAI_ASSISTANTID")) = Ok stream ->
  stream_items stream = Ok (events, ending) ->
  Forall (fun x => nullish x = false) events ->
  let threadId := field body "threadId" in
  let effects := (map (fun m => Up (ThreadsMessagesCreate threadId m)) msgs
                  ++ [Up (ThreadsRunsCreateAndStream threadId (process_env env "OPENAI_ASSISTANTID"))])%list in
  serve env upstream fuel "assistantOpenaiAnalyseStreaming" body
  = match ending with
    | None =>
        (Val tt,
         {| res := sse_response 200 sse_headers
                     (delta_frames delta_envelope assistant_delta events ++ [DONE]) 1;
            trace := effects |})
    | Some e =>
        (Throw ERR_HTTP_HEADERS_SENT,
         {| res := sse_response (status_or_500 e) sse_headers
                     (delta_frames delta_envelope assistant_delta events) 0;
            trace := effects |})
    end.
Proof.
  intros Hold Hiter Hmsgs Hup Hitems Hobj threadId effects.
  unfold serve, api_service, dispatch. cbn [String.eqb Ascii.eqb Bool.eqb].
  unfold assistantOpenaiAnalyseStreaming. rewrite Hold, Hiter. cbn [negb lift].
  assert (Hprefix :
    forall k : JsValue -> M unit,
      (thread <- (msgs0 <- ret msgs ;;
                  for_each msgs0 (fun msg =>
                    await upstream (ThreadsMessagesCreate
                                      (get (obj1 "id" (field body "threadId")) "id") msg) ;;
                    ret tt) ;;
                  ret (obj1 "id" (field body "threadId"))) ;; k thread) start
      = k (obj1 "id" threadId)
          {| res := fresh_response;
             trace := map (fun m => Up (ThreadsMessagesCreate threadId m)) msgs |}).
  { intros k. erewrite run_bind_val; [reflexivity|].
    step. step_by ltac:(apply append_messages; exact Hmsgs). reflexivity. }
  assert (Hlen : length (map (fun m => Up (ThreadsMessagesCreate threadId m)) msgs)
                 = length msgs) by apply length_map.
  destruct ending as [e|].
  - erewrite run_catch_throw.
    2:{ rewrite Hprefix. do 5 step.
        step_by ltac:(apply run_await; cbn [trace]; rewrite Hlen; exact Hup).
        step_by ltac:(eapply run_for_await_throw;
                      [exact Hitems
                      |apply (relay_loop "data" delta_envelope
                                (fun c => get (get c "delta") "content"));
                       [exact Hobj | reflexivity | reflexivity]]).
        reflexivity. }
    reflexivity.
  - erewrite run_catch_val; [reflexivity|].
    rewrite Hprefix. do 5 step.
    step_by ltac:(apply run_await; cbn [trace]; rewrite Hlen; exact Hup).
    step_by ltac:(eapply run_for_await;
                  [exact Hitems
                  |apply (relay_loop "data" delta_envelope
                            (fun c => get (get c "delta") "content"));
                   [exact Hobj | reflexivity | reflexivity]]).
    step. reflexivity.
Qed.


(** The poll loop: when the first terminal status comes at query [n]
    (counted from 0), any fuel above [n] lets the loop return that status
    after [n + 1] rounds. *)
Lemma poll_run (threadId runId : JsValue) (n : nat) :
  forall (fuel0 : nat) (w : World) (last : Answer),
  n < fuel0 ->
  (forall k, k < n ->
     exists a, upstream (length (trace w) + 2 * k + 1) (ThreadsRunsRetrieve threadId runId) = Ok a
               /\ nullish (as_data a) = false
               /\ terminal (get (as_data a) "status") = false) ->
  upstream (length (trace w) + 2 * n + 1) (ThreadsRunsRetrieve threadId runId) = Ok last ->
  nullish (as_data last) = false ->
  terminal (get (as_data last) "status") = true ->
  poll upstream fuel0 threadId runId w
  = (Val (as_data last),
     {| res := res w; trace := trace w ++ poll_rounds threadId runId (S n) |}).
Proof.
  induction n as [|n IH]; intros fuel0 w last Hfuel Hbefore Hlast Hobj Hterm;
    (destruct fuel0 as [|fuel0]; [lia|]); cbn [poll].
  - step.
    step_by ltac:(apply run_await; cbn [trace]; rewrite length_app; simpl;
                  rewrite Nat.add_0_r in Hlast; exact Hlast).
    unfold member. rewrite Hobj. step.
    unfold terminal in Hterm.
    destruct (is_string _ "completed"), (is_string _ "failed"); try discriminate;
      cbn [negb andb poll_rounds]; unfold ret; rewrite <- app_assoc; reflexivity.
  - destruct (Hbefore 0) as (a & Ha & Hao & Hat); [lia|].
    step.
    step_by ltac:(apply run_await; cbn [trace]; rewrite length_app; simpl;
                  rewrite Nat.add_0_r in Ha; exact Ha).
    unfold member. rewrite Hao. step.
    unfold terminal in Hat.
    destruct (is_string _ "completed"), (is_string _ "failed"); try discriminate.
    cbn [negb andb].
    rewrite (IH fuel0 _ last); try assumption; try lia.
    + cbn [res trace poll_rounds]. rewrite <- !app_assoc. reflexivity.
    + intros k Hk. destruct (Hbefore (S k)) as (b & Hb & Hbo & Hbt); [lia|].
      exists b. repeat split; try assumption.
      cbn [trace]. rewrite !length_app. simpl length.
      replace (length (trace w) + 1 + 1 + 2 * k + 1) with (length (trace w) + 2 * S k + 1) by lia.
      exact Hb.
    + cbn [trace]. rewrite !length_app. simpl length.
      replace (length (trace w) + 1 + 1 + 2 * n + 1) with (length (trace w) + 2 * S n + 1) by lia.
      exact Hlast.
Qed.

(** Without enough fuel the loop is still waiting. *)
Lemma poll_pending (threadId runId : JsValue) (n : nat) :
  forall (w : World),
  (forall k, k < n ->
     exists a, upstream (length (trace w) + 2 * k + 1) (ThreadsRunsRetrieve threadId runId) = Ok a
               /\ nullish (as_data a) = false
               /\ terminal (get (as_data a) "status") = false) ->
  fst (poll upstream n threadId runId w) = Pending.
Proof.
  induction n as [|n IH]; intros w Hbefore; cbn [poll]; [reflexivity|].
  destruct (Hbefore 0) as (a & Ha & Hao & Hat); [lia|].
  step.
  step_by ltac:(apply run_await; cbn [trace]; rewrite length_app; simpl;
                rewrite Nat.add_0_r in Ha; exact Ha).
  unfold member. rewrite Hao. step.
  unfold terminal in Hat.
  destruct (is_string _ "completed"), (is_string _ "failed"); try discriminate.
  cbn [negb andb]. apply IH.
  intros k Hk. destruct (Hbefore (S k)) as (b & Hb & Hbo & Hbt); [lia|].
  exists b. repeat split; try assumption.
  cbn [trace]. rewrite !length_app. simpl length.
  replace (length (trace w) + 1 + 1 + 2 * k + 1) with (length (trace w) + 2 * S k + 1) by lia.
  exact Hb.
Qed.


(** assistantOpenaiAnalyse: thread, run, [n + 1] rounds of polling, then
    the answer for "completed" or the 500 for "failed". *)
Lemma assistantOpenaiAnalyse_run (thread run last : Answer) (n : nat) :
  let threadId := get (as_data thread) "id" in
  let runId := get (as_data run) "id" in
  upstream 0 (ThreadsCreate (field body "messages")) = Ok thread ->
  nullish (as_data thread) = false ->
  upstream 1 (ThreadsRunsCreate threadId (process_env env "OPENAI_ASSISTANTID")) = Ok run ->
  nullish (as_data run) = false ->
  (forall k, k < n ->
     exists a, upstream (2 + 2 * k + 1) (ThreadsRunsRetrieve threadId runId) = Ok a
               /\ nullish (as_data a) = false
               /\ terminal (get (as_data a) "status") = false) ->
  upstream (2 + 2 * n + 1) (ThreadsRunsRetrieve threadId runId) = Ok last ->
  nullish (as_data last) = false ->
  terminal (get (as_data last) "status") = true ->
  n < fuel ->
  try_catch (dispatch env upstream fuel "assistantOpenaiAnalyse" body)
            (api_request_error "assistantOpenaiAnalyse") start
  = try_catch
      (if negb (is_string (get (as_data last) "status") "completed")
       then status 500 ;;
            json (JObj [("error", JStr "Assistant run failed");
                        ("details", get (as_data last) "status")])
       else
         msgs <- await upstream (ThreadsMessagesList threadId) ;;
         data <- member (as_data msgs) "data" ;;
         first <- element data 0 ;;
         json (obj1 "answer"
                 (js_or (get (get (at_ (get first "content") 0) "text") "value") (JStr ""))))
      (api_request_error "assistantOpenaiAnalyse")
      {| res := fresh_response;
         trace := [Up (ThreadsCreate (field body "messages"));
                   Up (ThreadsRunsCreate threadId (process_env env "OPENAI_ASSISTANTID"))]
                  ++ poll_rounds threadId runId (S n) |}.
Proof.
  intros threadId runId Hthread Htobj Hrun Hrobj Hbefore Hlast Hlobj Hterm Hfuel.
  unfold dispatch. cbn [String.eqb Ascii.eqb Bool.eqb].
  unfold assistantOpenaiAnalyse, try_catch.
  step_by ltac:(apply run_await; exact Hthread).
  unfold member at 1. rewrite Htobj. step.
  step_by ltac:(apply run_await; exact Hrun).
  unfold member at 1. rewrite Hrobj. step.
  erewrite run_bind_val; [reflexivity|].
  apply poll_run with (n := n); assumption.
Qed.

End Runs.

(** ** The poll-based analysis *)

(** C3. The poll-based analysis creates a thread and a run and then
    queries the run, each query after a sleep of one second, until the
    status is "completed" or "failed". When the first such status comes at
    the query number [n] (from 0) and is not "completed", the answer is
    status 500 with [{error: "Assistant run failed", details: "failed"}]
    and the messages are never listed; when it is "completed", the latest
    message is listed once and returned as one JSON body, without
    streaming. Any fuel above [n] suffices. *)
Theorem assistantOpenaiAnalyse_polls_until_terminal
    (env : string -> option string) (upstream : nat -> UpCall -> Result Answer)
    (fuel : nat) (body : Body) (thread run last : Answer) (n : nat) :
  let threadId := get (as_data thread) "id" in
  let runId := get (as_data run) "id" in
  let effects := ([Up (ThreadsCreate (field body "messages"));
                   Up (ThreadsRunsCreate threadId (process_env env "OPENAI_ASSISTANTID"))]
                  ++ poll_rounds threadId runId (S n))%list in
  upstream 0 (ThreadsCreate (field body "messages")) = Ok thread ->
  nullish (as_data thread) = false ->
  upstream 1 (ThreadsRunsCreate threadId (process_env env "OPENAI_ASSISTANTID")) = Ok run ->
  nullish (as_data run) = false ->
  (forall k, k < n ->
     exists a, upstream (2 + 2 * k + 1) (ThreadsRunsRetrieve threadId runId) = Ok a
               /\ nullish (as_data a) = false
               /\ terminal (get (as_data a) "status") = false) ->
  upstream (2 + 2 * n + 1) (ThreadsRunsRetrieve threadId runId) = Ok last ->
  nullish (as_data last) = false ->
  terminal (get (as_data last) "status") = true ->
  n < fuel ->
  (is_string (get (as_data last) "status") "completed" = false ->
   serve env upstream fuel "assistantOpenaiAnalyse" body
   = (Val tt,
      {| res := json_response 500 (JObj [("error", JStr "Assistant run failed");
                                         ("details", JStr "failed")]);
         trace := effects |}))
  /\
  (is_string (get (as_data last) "status") "completed" = true ->
   forall msgs,
     upstream (2 + 2 * n + 2) (ThreadsMessagesList threadId) = Ok msgs ->
     nullish (as_data msgs) = false ->
     nullish (get (as_data msgs) "data") = false ->
     serve env upstream fuel "assistantOpenaiAnalyse" body
     = (Val tt,
        {| res := json_response 200 (obj1 "answer" (answer_of (as_data msgs)));
           trace := (effects ++ [Up (ThreadsMessagesList threadId)])%list |})).
Proof.
  intros threadId runId effects Hthread Htobj Hrun Hrobj Hbefore Hlast Hlobj Hterm Hfuel.
  unfold serve, api_service.
  rewrite (@assistantOpenaiAnalyse_run env upstream fuel body thread run last n)
    by assumption.
  fold threadId runId.
  assert (Hlen : length effects = 2 + 2 * n + 2).
  { unfold effects. rewrite length_app. simpl. clear. induction n; simpl in *; lia. }
  split.
  - intros Hfailed. rewrite Hfailed. cbn [negb].
    assert (Hs : get (as_data last) "status" = JStr "failed").
    { unfold terminal in Hterm. rewrite Hfailed in Hterm. cbn [orb] in Hterm.
      destruct (get (as_data last) "status"); try discriminate.
      simpl in Hterm. apply String.eqb_eq in Hterm. now subst. }
    rewrite Hs. reflexivity.
  - intros Hdone msgs Hlist Hmobj Hdata. rewrite Hdone. cbn [negb].
    erewrite run_catch_val; [reflexivity|].
    step_by ltac:(apply run_await; cbn [trace]; unfold effects in Hlen; rewrite Hlen;
                  exact Hlist).
    unfold member. rewrite Hmobj. step.
    unfold element. rewrite Hdata. step.
    reflexivity.
Qed.

Lemma assistantOpenaiAnalyse_polls_until_terminal_witness :
  (2 < 5)%nat /\
  assistant_upstream "failed" 7 (ThreadsRunsRetrieve (JStr "thread_1") (JStr "run_1"))
  = Ok (Data (run_status "failed")) /\
  serve openai_env (assistant_upstream "failed") 5 "assistantOpenaiAnalyse" chat_request
  = (Val tt,
     {| res := json_response 500 (JObj [("error", JStr "Assistant run failed");
                                        ("details", JStr "failed")]);
        trace := [Up (ThreadsCreate (JArr [user_message "Salut"]));
                  Up (ThreadsRunsCreate (JStr "thread_1") (JStr "asst_1"));
                  Sleep 1000; Up (ThreadsRunsRetrieve (JStr "thread_1") (JStr "run_1"));
                  Sleep 1000; Up (ThreadsRunsRetrieve (JStr "thread_1") (JStr "run_1"));
                  Sleep 1000; Up (ThreadsRunsRetrieve (JStr "thread_1") (JStr "run_1"))] |})
  /\
  serve openai_env (assistant_upstream "completed") 5 "assistantOpenaiAnalyse" chat_request
  = (Val tt,
     {| res := json_response 200 (obj1 "answer" (JStr "Bravo"));
        trace := [Up (ThreadsCreate (JArr [user_message "Salut"]));
                  Up (ThreadsRunsCreate (JStr "thread_1") (JStr "asst_1"));
                  Sleep 1000; Up (ThreadsRunsRetrieve (JStr "thread_1") (JStr "run_1"));
                  Sleep 1000; Up (ThreadsRunsRetrieve (JStr "thread_1") (JStr "run_1"));
                  Sleep 1000; Up (ThreadsRunsRetrieve (JStr "thread_1") (JStr "run_1"));
                  Up (ThreadsMessagesList (JStr "thread_1"))] |}).
Proof.
  split; [lia|]. split; [reflexivity|].
  assert (Hbefore : forall final k, (k < 2)%nat ->
            exists a, assistant_upstream final (2 + 2 * k + 1)
                        (ThreadsRunsRetrieve (JStr "thread_1") (JStr "run_1")) = Ok a
                      /\ nullish (as_data a) = false
                      /\ terminal (get (as_data a) "status") = false).
  { intros final k Hk. destruct k as [|[|k]]; [| |lia];
      (eexists; repeat split; reflexivity). }
  split.
  - apply (@assistantOpenaiAnalyse_polls_until_terminal openai_env
             (assistant_upstream "failed") 5 chat_request
             (Data (obj1 "id" (JStr "thread_1"))) (Data (run_status "queued"))
             (Data (run_status "failed")) 2);
      try reflexivity; [apply Hbefore | lia].
  - assert (Hfuel : (2 < 5)%nat) by lia.
    destruct (@assistantOpenaiAnalyse_polls_until_terminal openai_env
                (assistant_upstream "completed") 5 chat_request
                (Data (obj1 "id" (JStr "thread_1"))) (Data (run_status "queued"))
                (Data (run_status "completed")) 2
                eq_refl eq_refl eq_refl eq_refl (Hbefore "completed")
                eq_refl eq_refl eq_refl Hfuel) as [_ Hdone].
    apply (Hdone eq_refl
             (Data (obj1 "data"
                      (JArr [obj1 "content"
                               (JArr [obj1 "text" (obj1 "value" (JStr "Bravo"))])]))));
      reflexivity.
Defined.

(** A status that is neither "completed" nor "failed" keeps the loop
    going: whatever the fuel, the handler is still waiting. *)
Example assistantOpenaiAnalyse_cancelled :
  fst (serve openai_env (assistant_upstream "cancelled") 50 "assistantOpenaiAnalyse"
         chat_request) = Pending.
Proof. reflexivity. Qed.

(** ** The streaming relay *)




(** The frames of that run, spelled out. *)
Example relay_frames_spelled_out :
  frames (snd (serve no_env (streaming_upstream None) 0 "openaiAnalyse" chat_request))
  = [Text ("data: {" ++ dq ++ "delta" ++ dq ++ ":" ++ dq ++ "Bon" ++ dq ++ "}" ++ nl ++ nl);
     Text ("data: {" ++ dq ++ "delta" ++ dq ++ ":" ++ dq ++ "jour" ++ dq ++ "}" ++ nl ++ nl);
     Text ("data: [DONE]" ++ nl ++ nl)].
Proof. reflexivity. Qed.

(** C1: the failure path of openaiAnalyse.  When the upstream stream fails
    after the headers are sent, the catch block writes its error frame
    and closes the sink once, and the sentinel is not written: the last
    frame is the error frame. *)
Theorem openaiAnalyse_failure_omits_sentinel
    (env : string -> option string) (upstream : nat -> UpCall -> Result Answer)
    (fuel : nat) (body : Body)
    (stream : Answer) (events : list JsValue) (e : JsError) :
  upstream 0 (ChatCompletionsCreate (field body "model") (field body "messages"))
  = Ok stream ->
  stream_items stream = Ok (events, Some e) ->
  Forall (fun x => nullish x = false) events ->
  frames (snd (serve env upstream fuel "openaiAnalyse" body))
  = (delta_frames delta_envelope chat_delta events
     ++ [error_frame "Errore durante lo streaming AI."])%list
  /\ last (frames (snd (serve env upstream fuel "openaiAnalyse" body))) DONE <> DONE
  /\ ended (res (snd (serve env upstream fuel "openaiAnalyse" body))) = 1.
Proof.
  intros Hup Hitems Hobj.
  rewrite (@openaiAnalyse_run env upstream fuel body _ _ _ Hup Hitems Hobj).
  unfold frames. cbn [snd res sse_response written ended].
  repeat split. rewrite last_last. discriminate.
Qed.

Lemma openaiAnalyse_failure_omits_sentinel_witness :
  failing_chat 0 (ChatCompletionsCreate (field chat_request "model")
                                        (field chat_request "messages"))
  = Ok (Stream JUndefined [text_event "Bon"; text_event "jour"] (Some upstream_failure)) /\
  frames (snd (serve no_env failing_chat 0 "openaiAnalyse" chat_request))
  = (delta_frames delta_envelope chat_delta [text_event "Bon"; text_event "jour"]
     ++ [error_frame "Errore durante lo streaming AI."])%list
  /\ last (frames (snd (serve no_env failing_chat 0 "openaiAnalyse" chat_request))) DONE
     <> DONE
  /\ ended (res (snd (serve no_env failing_chat 0 "openaiAnalyse" chat_request))) = 1.
Proof.
  split; [reflexivity|].
  apply (@openaiAnalyse_failure_omits_sentinel no_env failing_chat 0 chat_request
           (Stream JUndefined [text_event "Bon"; text_event "jour"] (Some upstream_failure))
           [text_event "Bon"; text_event "jour"] upstream_failure eq_refl eq_refl).
  repeat constructor.
Defined.

(** The same failure in the other SSE branches: vertexChat ends with the
    error frame and the sentinel and closes once; openaiSimulateur and
    assistantOpenaiAnalyseStreaming have no catch block of their own, the
    router's cannot answer after the headers, and the sink stays open. *)
Example failure_paths :
  serve no_env (streaming_upstream (Some upstream_failure)) 0 "vertexChat" chat_request
  = (Val tt,
     {| res := sse_response 200 sse_headers
                 (delta_frames delta_envelope vertex_delta
                    [vertex_item "Bon"; vertex_item "jour"]
                  ++ [error_frame "socket hang up"; DONE]) 1;
        trace := [Up (VertexGenerateContentStream "USER: Salut")] |})
  /\ serve no_env failing_chat 0 "openaiSimulateur" chat_request
     = (Throw ERR_HTTP_HEADERS_SENT,
        {| res := sse_response 500 sse_headers
                    (delta_frames choices_envelope chat_delta
                       [text_event "Bon"; text_event "jour"]) 0;
           trace := [Up (ChatCompletionsCreate (JStr "gpt-4o")
                           (JArr [user_message "Salut"]))] |}).
Proof. split; reflexivity. Qed.

(** On the success path the two chat-completion branches end with the
    sentinel and close the sink once. *)
Lemma sentinel_last_on_success
    (env : string -> option string) (upstream : nat -> UpCall -> Result Answer)
    (fuel : nat) (body : Body) (stream : Answer) (events : list JsValue) :
  upstream 0 (ChatCompletionsCreate (field body "model") (field body "messages"))
  = Ok stream ->
  stream_items stream = Ok (events, None) ->
  Forall (fun x => nullish x = false) events ->
  last (frames (snd (serve env upstream fuel "openaiSimulateur" body))) (Text "") = DONE
  /\ ended (res (snd (serve env upstream fuel "openaiSimulateur" body))) = 1
  /\ last (frames (snd (serve env upstream fuel "openaiAnalyse" body))) (Text "") = DONE
  /\ ended (res (snd (serve env upstream fuel "openaiAnalyse" body))) = 1.
Proof.
  intros Hup Hitems Hobj.
  rewrite (@openaiSimulateur_run env upstream fuel body _ _ _ Hup Hitems Hobj).
  rewrite (@openaiAnalyse_run env upstream fuel body _ _ _ Hup Hitems Hobj).
  unfold frames. cbn [snd res sse_response written ended].
  repeat split.
  - change [usage_frame stream; DONE] with ([usage_frame stream] ++ [DONE])%list.
    now rewrite app_assoc, last_last.
  - now rewrite last_last.
Qed.

(** vertexChat in streaming mode ends with the sentinel and closes the
    sink once, whether the stream ends or fails. *)
Lemma vertexChat_sentinel_last
    (env : string -> option string) (upstream : nat -> UpCall -> Result Answer)
    (fuel : nat) (body : Body) (prompt : string) (result : Answer)
    (items : list JsValue) (ending : option JsError) :
  promptText (field body "messages") = Ok prompt ->
  is_false (default_to (JBool true) (field body "stream")) = false ->
  upstream 0 (VertexGenerateContentStream prompt) = Ok result ->
  member_stream result "stream" = Ok (items, ending) ->
  Forall (fun x => nullish x = false) items ->
  last (frames (snd (serve env upstream fuel "vertexChat" body))) (Text "") = DONE
  /\ ended (res (snd (serve env upstream fuel "vertexChat" body))) = 1.
Proof.
  intros Hprompt Hmode Hup Hitems Hobj.
  rewrite (@vertexChat_stream_run env upstream fuel body _ _ _ _
             Hprompt Hmode Hup Hitems Hobj).
  unfold frames. cbn [snd res sse_response written ended].
  split; [|reflexivity].
  destruct ending as [e|].
  - change [error_frame (e_message e); DONE]
      with ([error_frame (e_message e)] ++ [DONE])%list.
    now rewrite app_assoc, last_last.
  - now rewrite last_last.
Qed.

(** ** Conversation threads *)

Lemma calls_of_ups (l : list UpCall) :
  flat_map (fun e => match e with Up c => [c] | Sleep _ => [] end) (map Up l) = l.
Proof. induction l as [|c l IH]; simpl; [reflexivity | now rewrite IH]. Qed.

Lemma delta_frame_no_threadId (d : JsValue) :
  is_threadId_frame (frame (stringified (delta_envelope d))) = false.
Proof.
  unfold delta_envelope, obj1, stringified. cbn [JSON_stringify flat_map].
  destruct (JSON_stringify d); reflexivity.
Qed.

Lemma delta_frames_no_threadId (extract : JsValue -> JsValue) (items : list JsValue) :
  forallb (fun c => negb (is_threadId_frame c))
          (delta_frames delta_envelope extract items) = true.
Proof.
  unfold delta_frames.
  induction (filter truthy (map extract items)) as [|d l IH]; [reflexivity|].
  cbn [map forallb]. now rewrite delta_frame_no_threadId, IH.
Qed.

(** C8. In the streaming analysis, a request without a thread identifier
    creates a thread and announces its identifier in the first frame,
    before any delta frame; a request with a thread identifier appends its
    messages to that thread, one call for each, creates no thread, and
    writes no frame that announces an identifier. *)
Theorem thread_created_or_reused
    (env : string -> option string) (upstream : nat -> UpCall -> Result Answer)
    (fuel : nat) (first follow_up : Body)
    (created stream1 stream2 : Answer) (events1 events2 msgs : list JsValue)
    (ending1 ending2 : option JsError) :
  let assistantId := process_env env "OPENAI_ASSISTANTID" in
  let threadId1 := get (as_data created) "id" in
  let threadId2 := field follow_up "threadId" in
  truthy (field first "threadId") = false ->
  upstream 0 (ThreadsCreate (field first "messages")) = Ok created ->
  nullish (as_data created) = false ->
  upstream 1 (ThreadsRunsCreateAndStream threadId1 assistantId) = Ok stream1 ->
  stream_items stream1 = Ok (events1, ending1) ->
  Forall (fun x => nullish x = false) events1 ->
  truthy threadId2 = true ->
  iterable (field follow_up "messages") = Ok msgs ->
  (forall i m, nth_error msgs i = Some m ->
     exists a, upstream i (ThreadsMessagesCreate threadId2 m) = Ok a) ->
  upstream (length msgs) (ThreadsRunsCreateAndStream threadId2 assistantId) = Ok stream2 ->
  stream_items stream2 = Ok (events2, ending2) ->
  Forall (fun x => nullish x = false) events2 ->
  calls (snd (serve env upstream fuel "assistantOpenaiAnalyseStreaming" first))
  = [ThreadsCreate (field first "messages");
     ThreadsRunsCreateAndStream threadId1 assistantId]
  /\ frames (snd (serve env upstream fuel "assistantOpenaiAnalyseStreaming" first))
     = (frame (stringified (obj1 "threadId" threadId1))
        :: delta_frames delta_envelope assistant_delta events1
        ++ match ending1 with None => [DONE] | Some _ => [] end)%list
  /\ calls (snd (serve env upstream fuel "assistantOpenaiAnalyseStreaming" follow_up))
     = (map (ThreadsMessagesCreate threadId2) msgs
        ++ [ThreadsRunsCreateAndStream threadId2 assistantId])%list
  /\ frames (snd (serve env upstream fuel "assistantOpenaiAnalyseStreaming" follow_up))
     = (delta_frames delta_envelope assistant_delta events2
        ++ match ending2 with None => [DONE] | Some _ => [] end)%list
  /\ forallb (fun c => negb (is_threadId_frame c))
       (frames (snd (serve env upstream fuel "assistantOpenaiAnalyseStreaming" follow_up)))
     = true.
Proof.
  intros assistantId threadId1 threadId2 Hnew Hcreate Hthread Hup1 Hitems1 Hobj1
         Hold Hiter Hmsgs Hup2 Hitems2 Hobj2.
  rewrite (@assistantStreaming_new_thread_run env upstream fuel first _ _ _ _
             Hnew Hcreate Hthread Hup1 Hitems1 Hobj1).
  rewrite (@assistantStreaming_existing_thread_run env upstream fuel follow_up _ _ _ _
             Hold Hiter Hmsgs Hup2 Hitems2 Hobj2).
  fold assistantId threadId1 threadId2.
  assert (Hcalls :
    flat_map (fun e => match e with Up c => [c] | Sleep _ => [] end)
      (map (fun m => Up (ThreadsMessagesCreate threadId2 m)) msgs
       ++ [Up (ThreadsRunsCreateAndStream threadId2 assistantId)])
    = (map (ThreadsMessagesCreate threadId2) msgs
       ++ [ThreadsRunsCreateAndStream threadId2 assistantId])%list).
  { rewrite flat_map_app, <- (map_map (ThreadsMessagesCreate threadId2) Up), calls_of_ups.
    reflexivity. }
  unfold calls, frames.
  destruct ending1, ending2; cbn [snd res trace sse_response written];
    rewrite ?app_nil_r, ?Hcalls; repeat split;
    rewrite ?forallb_app, ?delta_frames_no_threadId; reflexivity.
Qed.

Lemma thread_created_or_reused_witness :
  truthy (field chat_request "threadId") = false /\
  truthy (field follow_up_request "threadId") = true /\
  calls (snd (serve openai_env (streaming_upstream None) 0
                "assistantOpenaiAnalyseStreaming" chat_request))
  = [ThreadsCreate (JArr [user_message "Salut"]);
     ThreadsRunsCreateAndStream (JStr "thread_1") (JStr "asst_1")]
  /\ frames (snd (serve openai_env (streaming_upstream None) 0
                    "assistantOpenaiAnalyseStreaming" chat_request))
     = (frame (stringified (obj1 "threadId" (JStr "thread_1")))
        :: delta_frames delta_envelope assistant_delta
             [assistant_event "Bon"; assistant_event "jour"]
        ++ [DONE])%list
  /\ calls (snd (serve openai_env (streaming_upstream None) 0
                   "assistantOpenaiAnalyseStreaming" follow_up_request))
     = [ThreadsMessagesCreate (JStr "thread_1") (user_message "Et ensuite ?");
        ThreadsMessagesCreate (JStr "thread_1") (user_message "Merci");
        ThreadsRunsCreateAndStream (JStr "thread_1") (JStr "asst_1")]
  /\ frames (snd (serve openai_env (streaming_upstream None) 0
                    "assistantOpenaiAnalyseStreaming" follow_up_request))
     = (delta_frames delta_envelope assistant_delta
          [assistant_event "Bon"; assistant_event "jour"] ++ [DONE])%list
  /\ forallb (fun c => negb (is_threadId_frame c))
       (frames (snd (serve openai_env (streaming_upstream None) 0
                       "assistantOpenaiAnalyseStreaming" follow_up_request)))
     = true.
Proof.
  split; [reflexivity|]. split; [reflexivity|].
  assert (Hobj : Forall (fun x => nullish x = false)
                   [assistant_event "Bon"; assistant_event "jour"])
    by (repeat constructor).
  assert (Hmsgs : forall i m,
            nth_error [user_message "Et ensuite ?"; user_message "Merci"] i = Some m ->
            exists a, streaming_upstream None i
                        (ThreadsMessagesCreate (field follow_up_request "threadId") m) = Ok a).
  { intros i m _. eexists. reflexivity. }
  apply (@thread_created_or_reused openai_env (streaming_upstream None) 0
           chat_request follow_up_request
           (Data (obj1 "id" (JStr "thread_1")))
           (Stream JUndefined [assistant_event "Bon"; assistant_event "jour"] None)
           (Stream JUndefined [assistant_event "Bon"; assistant_event "jour"] None)
           [assistant_event "Bon"; assistant_event "jour"]
           [assistant_event "Bon"; assistant_event "jour"]
           [user_message "Et ensuite ?"; user_message "Merci"] None None
           eq_refl eq_refl eq_refl eq_refl eq_refl Hobj
           eq_refl eq_refl Hmsgs eq_refl eq_refl Hobj).
Defined.

(** A first request, frame by frame. *)
Example new_thread_frames :
  frames (snd (serve openai_env (streaming_upstream None) 0
                 "assistantOpenaiAnalyseStreaming" chat_request))
  = [Text ("data: {" ++ dq ++ "threadId" ++ dq ++ ":" ++ dq ++ "thread_1" ++ dq ++ "}"
           ++ nl ++ nl);
     Text ("data: {" ++ dq ++ "delta" ++ dq ++ ":[{" ++ dq ++ "index" ++ dq ++ ":0,"
           ++ dq ++ "type" ++ dq ++ ":" ++ dq ++ "text" ++ dq ++ ","
           ++ dq ++ "text" ++ dq ++ ":{" ++ dq ++ "value" ++ dq ++ ":" ++ dq ++ "Bon" ++ dq
           ++ "}}]}" ++ nl ++ nl);
     Text ("data: {" ++ dq ++ "delta" ++ dq ++ ":[{" ++ dq ++ "index" ++ dq ++ ":0,"
           ++ dq ++ "type" ++ dq ++ ":" ++ dq ++ "text" ++ dq ++ ","
           ++ dq ++ "text" ++ dq ++ ":{" ++ dq ++ "value" ++ dq ++ ":" ++ dq ++ "jour" ++ dq
           ++ "}}]}" ++ nl ++ nl);
     Text ("data: [DONE]" ++ nl ++ nl)].
Proof. reflexivity. Qed.

(* ===================================================================== *)
(** * Further properties of the code *)
(* ===================================================================== *)

(** ** Answering exactly once *)

(** A step that returns and sends nothing. *)
Lemma sends_nothing_val {A} (c : M A) :
  (forall w, unsent w -> exists a w', c w = (Val a, w') /\ unsent w') ->
  sends_nothing c.
Proof. intros H w Hw. left. now apply H. Qed.

Lemma sends_nothing_ret {A} (a : A) : sends_nothing (ret a).
Proof. intros w Hw. left. now exists a, w. Qed.

Lemma sends_nothing_throw {A} (e : JsError) : sends_nothing (@throw A e).
Proof. intros w Hw. right. now exists e, w. Qed.

Lemma sends_nothing_lift {A} (r : Result A) : sends_nothing (lift r).
Proof. destruct r; [apply sends_nothing_ret | apply sends_nothing_throw]. Qed.

Lemma sends_nothing_member (v : JsValue) (k : string) : sends_nothing (member v k).
Proof.
  unfold member. destruct (nullish v); [apply sends_nothing_throw | apply sends_nothing_ret].
Qed.

Lemma sends_nothing_element (v : JsValue) (i : nat) : sends_nothing (element v i).
Proof.
  unfold element. destruct (nullish v); [apply sends_nothing_throw | apply sends_nothing_ret].
Qed.

Lemma sends_nothing_identifier (scope : list (string * JsValue)) (name : string) :
  sends_nothing (identifier scope name).
Proof.
  unfold identifier. destruct (assoc name scope);
    [apply sends_nothing_ret | apply sends_nothing_throw].
Qed.

Lemma sends_nothing_status (code : Z) : sends_nothing (status code).
Proof.
  apply sends_nothing_val. intros [r t] (Hs & He & Hw). simpl in *.
  eexists tt, _. split; [reflexivity|]. now repeat split.
Qed.

Lemma sends_nothing_setHeader (k v : string) : sends_nothing (setHeader k v).
Proof.
  apply sends_nothing_val. intros [r t] (Hs & He & Hw). simpl in *.
  unfold setHeader. simpl. rewrite Hs.
  eexists tt, _. split; [reflexivity|]. now repeat split.
Qed.

Lemma sends_nothing_await upstream (c : UpCall) : sends_nothing (await upstream c).
Proof.
  intros w Hw. unfold await. destruct (upstream _ c) as [a|e]; [left | right];
    eexists _, _; (split; [reflexivity | exact Hw]).
Qed.

Lemma sends_nothing_bind {A B} (c : M A) (k : A -> M B) :
  sends_nothing c -> (forall a, sends_nothing (k a)) -> sends_nothing (bind c k).
Proof.
  intros Hc Hk w Hw. unfold bind.
  destruct (Hc w Hw) as [(a & w' & -> & Hw') | (e & w' & -> & Hw')].
  - apply Hk, Hw'.
  - right. now exists e, w'.
Qed.

Lemma answers_respond (content_type : string) (c : Chunk) :
  answers (respond content_type c).
Proof.
  intros [[code hs sent wr en] t] (Hs & He & Hw). simpl in *. subst.
  unfold respond, bind, read_headersSent, read_headers. simpl.
  destruct (assoc "Content-Type" hs); now repeat split.
Qed.

Lemma answers_json (v : JsValue) : answers (json v).
Proof. apply answers_respond. Qed.

Lemma answers_send (v : JsValue) : answers (send v).
Proof. apply answers_respond. Qed.

Lemma answers_may_throw (c : M unit) : answers c -> answers_or_throws c.
Proof. intros H w Hw. left. now apply H. Qed.

Lemma answers_or_throws_bind {A} (c : M A) (k : A -> M unit) :
  sends_nothing c -> (forall a, answers_or_throws (k a)) -> answers_or_throws (bind c k).
Proof.
  intros Hc Hk w Hw. unfold bind.
  destruct (Hc w Hw) as [(a & w' & -> & Hw') | (e & w' & -> & Hw')].
  - apply Hk, Hw'.
  - right. now exists e, w'.
Qed.

Lemma answers_try_catch (c : M unit) (h : JsError -> M unit) :
  answers_or_throws c -> (forall e, answers (h e)) -> answers (try_catch c h).
Proof.
  intros Hc Hh w Hw. unfold try_catch.
  destruct (Hc w Hw) as [(Hv & He & Hl) | (e & w' & -> & Hw')].
  - destruct (c w) as [[[]|e|] w']; simpl in *; try discriminate. now repeat split.
  - apply Hh, Hw'.
Qed.

(** A chain of steps that cannot throw before the body is sent. *)
Lemma answers_after_status (code : Z) (k : M unit) :
  answers k -> answers (status code ;; k).
Proof.
  intros Hk [r t] (Hs & He & Hw). unfold bind, status, update. simpl in *.
  apply Hk. now repeat split.
Qed.

Lemma answers_after_setHeader (n v : string) (k : M unit) :
  answers k -> answers (setHeader n v ;; k).
Proof.
  intros Hk [r t] (Hs & He & Hw). unfold bind, setHeader, update. simpl in *.
  rewrite Hs. apply Hk. now repeat split.
Qed.

Lemma answers_after_cors_headers (k : M unit) :
  answers k -> answers (cors_headers ;; k).
Proof.
  intros Hk [[code hs sent wr en] t] (Hs & He & Hw). simpl in *. subst.
  unfold cors_headers, bind, setHeader, update. simpl.
  apply Hk. now repeat split.
Qed.

(** Structural descent through a branch of the router, by the shape of
    the computation. *)
Ltac answer_step :=
  lazymatch goal with
  | |- forall _, _ => intros
  | |- answers (json _) => apply answers_json
  | |- answers (send _) => apply answers_send
  | |- answers (bind (status _) _) => apply answers_after_status
  | |- answers (bind (setHeader _ _) _) => apply answers_after_setHeader
  | |- answers (bind cors_headers _) => apply answers_after_cors_headers
  | |- answers (try_catch _ _) => apply answers_try_catch
  | |- answers_or_throws (json _) => apply answers_may_throw
  | |- answers_or_throws (send _) => apply answers_may_throw
  | |- answers_or_throws (try_catch _ _) => apply answers_may_throw
  | |- answers_or_throws (bind _ _) => apply answers_or_throws_bind
  | |- sends_nothing (bind _ _) => apply sends_nothing_bind
  | |- sends_nothing (ret _) => apply sends_nothing_ret
  | |- sends_nothing (throw _) => apply sends_nothing_throw
  | |- sends_nothing (lift _) => apply sends_nothing_lift
  | |- sends_nothing (member _ _) => apply sends_nothing_member
  | |- sends_nothing (element _ _) => apply sends_nothing_element
  | |- sends_nothing (identifier _ _) => apply sends_nothing_identifier
  | |- sends_nothing (status _) => apply sends_nothing_status
  | |- sends_nothing (setHeader _ _) => apply sends_nothing_setHeader
  | |- sends_nothing (await _ _) => apply sends_nothing_await
  | |- sends_nothing cors_headers => unfold cors_headers
  | |- _ (if ?b then _ else _) => destruct b
  | |- _ (match ?x with _ => _ end) => destruct x
  | |- _ (let _ := _ in _) => cbv zeta
  end.

Ltac answer := repeat answer_step.

Lemma answers_api_request_error (service : string) (e : JsError) :
  answers (api_request_error service e).
Proof. unfold api_request_error. answer. Qed.

Lemma unsent_start : unsent start.
Proof. now repeat split. Qed.

(** X1. Every service that neither streams, relays nor polls answers each
    request exactly once, whatever the body, the environment and the
    upstream do: the handler returns, one body is written and the sink is
    closed once. *)
Theorem one_piece_services_answer_once
    (env : string -> option string) (upstream : nat -> UpCall -> Result Answer)
    (fuel : nat) (service : string) (body : Body) :
  ~ In service long_running_services ->
  answered_once (serve env upstream fuel service body).
Proof.
  intros Hnot. unfold serve, api_service.
  apply answers_try_catch; [|apply answers_api_request_error|apply unsent_start].
  unfold dispatch.
  repeat match goal with
         | |- context [String.eqb service ?n] =>
             destruct (String.eqb_spec service n) as [->|_]
         end;
    try (exfalso; apply Hnot; simpl; tauto).
  - unfold azureOpenaiAnalyse. answer.
  - unfold openai_tts. answer.
  - unfold azureTTS_Scaleway, scaleway_catch. answer.
  - unfold azureTextToSpeech. answer.
  - unfold userList. answer.
  - unfold updateUserGroup. answer.
  - unfold elevenlabs. answer.
  - answer.
Qed.

Lemma one_piece_services_answer_once_witness :
  ~ In "elevenlabs" long_running_services /\
  answered_once (serve no_env (rejecting (http_error 429 [] (JBuffer "slow down"))) 0
                   "elevenlabs" italien_request).
Proof.
  assert (H : ~ In "elevenlabs" long_running_services).
  { simpl. intros H. repeat (destruct H as [H|H]; [discriminate H|]). exact H. }
  split; [exact H|].
  apply (@one_piece_services_answer_once no_env
           (rejecting (http_error 429 [] (JBuffer "slow down"))) 0 "elevenlabs"
           italien_request H).
Defined.

(** ** What escapes the router *)




(** ** Guards on the request and on the configuration *)

(** X3. A speech request without a text (absent, empty, or otherwise
    falsy) is refused with status 400 and [{error: "Text is required"}]
    before anything is asked upstream; in openai-tts the API key is
    tested first. *)
Theorem text_is_required
    (env : string -> option string) (upstream : nat -> UpCall -> Result Answer)
    (fuel : nat) (service : string) (body : Body) :
  In service text_guarded_services ->
  truthy (field body "text") = false ->
  (service = "openai-tts" -> truthy (process_env env "OPENAI_API_KEY_SIMULATEUR") = true) ->
  serve env upstream fuel service body
  = (Val tt, {| res := json_response 400 (error_body "Text is required"); trace := [] |}).
Proof.
  intros Hin Htext Hkey. unfold serve, api_service.
  simpl in Hin. destruct Hin as [<-|[<-|[<-|[<-|[]]]]];
    unfold dispatch; cbn [String.eqb Ascii.eqb Bool.eqb].
  - unfold openai_tts. rewrite (Hkey eq_refl), Htext. reflexivity.
  - unfold azureTTS_Scaleway. rewrite Htext. reflexivity.
  - unfold streaming_openai_tts. rewrite Htext. reflexivity.
  - unfold azureTextToSpeech. rewrite Htext. reflexivity.
Qed.

Lemma text_is_required_witness :
  In "streaming-openai-tts" text_guarded_services /\
  truthy (field [("text", JStr ""); ("selectedVoice", JStr "nova")] "text") = false /\
  serve no_env no_upstream 0 "streaming-openai-tts"
    [("text", JStr ""); ("selectedVoice", JStr "nova")]
  = (Val tt, {| res := json_response 400 (error_body "Text is required"); trace := [] |}).
Proof.
  assert (Hin : In "streaming-openai-tts" text_guarded_services) by (simpl; tauto).
  split; [exact Hin|]. split; [reflexivity|].
  apply (@text_is_required no_env no_upstream 0 "streaming-openai-tts"
           [("text", JStr ""); ("selectedVoice", JStr "nova")] Hin eq_refl).
  discriminate.
Defined.

(** X4. openai-tts and elevenlabs test their API key before they look at
    the request: without the key the answer is status 500 with the
    branch's message, whatever the body holds, and nothing is asked
    upstream. *)
Theorem api_key_is_required
    (env : string -> option string) (upstream : nat -> UpCall -> Result Answer)
    (fuel : nat) (service variable message : string) (body : Body) :
  In (service, (variable, message)) key_guards ->
  truthy (process_env env variable) = false ->
  serve env upstream fuel service body
  = (Val tt, {| res := json_response 500 (error_body message); trace := [] |}).
Proof.
  intros Hin Hkey. unfold serve, api_service.
  simpl in Hin. destruct Hin as [H|[H|[]]]; inversion H; subst;
    unfold dispatch; cbn [String.eqb Ascii.eqb Bool.eqb].
  - unfold openai_tts. rewrite Hkey. reflexivity.
  - unfold elevenlabs. rewrite Hkey. reflexivity.
Qed.

Lemma api_key_is_required_witness :
  In ("elevenlabs", ("ELEVENLAB_API_KEY", "ElevenLabs API key missing")) key_guards /\
  truthy (process_env (env_of [("ELEVENLAB_API_KEY", "")]) "ELEVENLAB_API_KEY") = false /\
  serve (env_of [("ELEVENLAB_API_KEY", "")]) no_upstream 0 "elevenlabs"
    [("selectedLanguage", JNum 7)]
  = (Val tt, {| res := json_response 500 (error_body "ElevenLabs API key missing");
                trace := [] |}).
Proof.
  assert (Hin : In ("elevenlabs", ("ELEVENLAB_API_KEY", "ElevenLabs API key missing"))
                   key_guards) by (simpl; tauto).
  split; [exact Hin|]. split; [reflexivity|].
  apply (@api_key_is_required (env_of [("ELEVENLAB_API_KEY", "")]) no_upstream 0
           "elevenlabs" "ELEVENLAB_API_KEY" "ElevenLabs API key missing"
           [("selectedLanguage", JNum 7)] Hin eq_refl).
Defined.

(** ** No second attempt *)

Lemma quiet_identifier (scope : list (string * JsValue)) (name : string) :
  quiet (identifier scope name).
Proof. unfold identifier. destruct (assoc name scope); intros w; reflexivity. Qed.

Lemma quiet_cors_headers : quiet cors_headers.
Proof. unfold cors_headers. quiet. Qed.

#[export] Hint Resolve quiet_identifier quiet_cors_headers : quiet.

Lemma at_most_quiet {A} (c : M A) (n : nat) : quiet c -> calls_at_most c n.
Proof.
  intros H w. exists []. simpl. rewrite app_nil_r. split; [apply H | lia].
Qed.

Lemma at_most_await upstream (c : UpCall) : calls_at_most (await upstream c) 1.
Proof.
  intros w. exists [c]. unfold await.
  destruct (upstream _ c); simpl; split; auto.
Qed.

Lemma at_most_bind {A B} (n m : nat) (c : M A) (k : A -> M B) :
  calls_at_most c n -> (forall a, calls_at_most (k a) m) ->
  calls_at_most (bind c k) (n + m).
Proof.
  intros Hc Hk w. unfold bind. destruct (Hc w) as (l1 & H1 & L1).
  destruct (c w) as [[a|e|] w']; simpl in *.
  - destruct (Hk a w') as (l2 & H2 & L2). exists (l1 ++ l2)%list.
    rewrite H2, H1, <- app_assoc, map_app, length_app. split; [reflexivity | lia].
  - exists l1. split; [assumption | lia].
  - exists l1. split; [assumption | lia].
Qed.

Lemma at_most_try_catch {A} (n m : nat) (c : M A) (h : JsError -> M A) :
  calls_at_most c n -> (forall e, calls_at_most (h e) m) ->
  calls_at_most (try_catch c h) (n + m).
Proof.
  intros Hc Hh w. unfold try_catch. destruct (Hc w) as (l1 & H1 & L1).
  destruct (c w) as [[a|e|] w']; simpl in *.
  - exists l1. split; [assumption | lia].
  - destruct (Hh e w') as (l2 & H2 & L2). exists (l1 ++ l2)%list.
    rewrite H2, H1, <- app_assoc, map_app, length_app. split; [reflexivity | lia].
  - exists l1. split; [assumption | lia].
Qed.

(** Every path of a branch holds one [await]: what comes before it and
    after it leaves the trace alone. *)
Ltac one_call :=
  lazymatch goal with
  | |- calls_at_most (if ?b then _ else _) _ => destruct b; one_call
  | |- calls_at_most (match ?x with _ => _ end) _ => destruct x; one_call
  | |- calls_at_most (let _ := _ in _) _ => cbv zeta; one_call
  | |- calls_at_most (await _ _) 1 => apply at_most_await
  | |- calls_at_most (bind (await _ _) _) 1 =>
      apply (@at_most_bind _ _ 1 0); [apply at_most_await | intros; apply at_most_quiet; quiet]
  | |- calls_at_most (bind _ _) 1 =>
      apply (@at_most_bind _ _ 0 1); [apply at_most_quiet; quiet | intros; one_call]
  | |- calls_at_most (try_catch _ _) 1 =>
      apply (@at_most_try_catch _ 1 0); [one_call | intros; apply at_most_quiet; quiet]
  | |- calls_at_most _ 1 => apply at_most_quiet; quiet
  end.

(** X5. Apart from the two assistant services, a request makes at most
    one upstream call and never sleeps: a call that fails is not tried
    again. *)
Theorem at_most_one_upstream_call
    (env : string -> option string) (upstream : nat -> UpCall -> Result Answer)
    (fuel : nat) (service : string) (body : Body) :
  ~ In service assistant_services ->
  exists cs,
    trace (snd (serve env upstream fuel service body)) = map Up cs
    /\ (length cs <= 1)%nat.
Proof.
  intros Hnot.
  assert (H : calls_at_most (api_service env upstream fuel service body) 1).
  { unfold api_service. apply (@at_most_try_catch _ 1 0);
      [|intros; apply at_most_quiet; quiet].
    unfold dispatch.
    repeat match goal with
           | |- context [String.eqb service ?n] =>
               destruct (String.eqb_spec service n) as [->|_]
           end;
      try (exfalso; apply Hnot; simpl; tauto).
    - unfold azureOpenaiSimulateur. one_call.
    - unfold vertexChat. one_call.
    - unfold openaiSimulateur. one_call.
    - unfold openaiAnalyse. one_call.
    - unfold azureOpenaiAnalyse. one_call.
    - unfold openai_tts. one_call.
    - unfold azureTTS_Scaleway, scaleway_catch. one_call.
    - unfold streaming_openai_tts. one_call.
    - unfold azureTextToSpeech. one_call.
    - unfold userList. one_call.
    - unfold updateUserGroup. one_call.
    - unfold elevenlabs. one_call.
    - one_call. }
  destruct (H start) as (cs & Ht & Hl). exists cs. now split.
Qed.

Lemma at_most_one_upstream_call_witness :
  ~ In "vertexChat" assistant_services /\
  exists cs,
    trace (snd (serve no_env (streaming_upstream (Some upstream_failure)) 0
                  "vertexChat" chat_request)) = map Up cs
    /\ (length cs <= 1)%nat.
Proof.
  assert (H : ~ In "vertexChat" assistant_services).
  { simpl. intros H. repeat (destruct H as [H|H]; [discriminate H|]). exact H. }
  split; [exact H|].
  apply (@at_most_one_upstream_call no_env (streaming_upstream (Some upstream_failure)) 0
           "vertexChat" chat_request H).
Defined.

(** ** The SSE branches under every upstream behaviour *)

Lemma wrote_streaming (w : World) (cs : list Chunk) : streaming w -> streaming (wrote w cs).
Proof. intros [Hs He]. split; [reflexivity | exact He]. Qed.

(** The stream loop over arbitrary items: it writes the delta frames of a
    prefix of the items and then returns or throws; it never closes the
    sink. *)
Lemma relay_loop_any (k : string) (wrap path : JsValue -> JsValue) (items : list JsValue) :
  forall w, streaming w ->
  exists (n : nat) (o : Outcome unit),
    for_each items (fun x => y <- member x k ;; write_delta wrap (path y)) w
    = (o, wrote w (delta_frames wrap (fun x => path (get x k)) (firstn n items)))
    /\ o <> Pending.
Proof.
  induction items as [|x items IH]; intros w Hw.
  - exists 0, (Val tt). destruct Hw as [Hs He].
    split; [|discriminate]. simpl. unfold delta_frames. simpl. now rewrite wrote_nil.
  - cbn [for_each]. destruct (nullish x) eqn:Hx.
    + exists 0, (Throw (TypeError ("Cannot read properties of undefined (reading '"
                                   ++ k ++ "')"))).
      split; [|discriminate]. unfold member. rewrite Hx.
      destruct Hw as [Hs He]. unfold delta_frames. simpl. now rewrite wrote_nil.
    + destruct Hw as [Hs He].
      erewrite run_bind_val by (now apply relay_step).
      destruct (IH (wrote w (delta_frames wrap (fun x => path (get x k)) [x])))
        as (n & o & Hrun & Ho); [now apply wrote_streaming|].
      exists (S n), o. split; [|exact Ho]. rewrite Hrun, wrote_wrote.
      unfold delta_frames. cbn [firstn map filter].
      destruct (truthy (path (get x k))); reflexivity.
Qed.

Lemma for_await_any (src : Result (list JsValue * option JsError))
    (k : string) (wrap path : JsValue -> JsValue) (w : World) :
  streaming w ->
  exists (seen : list JsValue) (o : Outcome unit),
    for_await src (fun x => y <- member x k ;; write_delta wrap (path y)) w
    = (o, wrote w (delta_frames wrap (fun x => path (get x k)) seen))
    /\ o <> Pending.
Proof.
  intros Hw. unfold for_await. destruct src as [[items ending]|e].
  - destruct (relay_loop_any k wrap path items Hw) as (n & o & Hrun & Ho).
    exists (firstn n items). destruct o as [[]|e|]; [| |contradiction].
    + erewrite run_bind_val by exact Hrun.
      destruct ending as [e|]; eexists; (split; [reflexivity | discriminate]).
    + erewrite run_bind_throw by exact Hrun.
      eexists; (split; [reflexivity | discriminate]).
  - exists [], (Throw e). split; [|discriminate].
    destruct Hw as [Hs He]. unfold delta_frames. simpl. now rewrite wrote_nil.
Qed.

(** X6. openaiAnalyse closes the sink exactly once and never throws,
    whatever the request holds and whatever the upstream does: the frames
    are delta frames followed by the sentinel, or by the fixed error
    frame when anything failed after the headers. *)
Theorem openaiAnalyse_always_closes_once
    (env : string -> option string) (upstream : nat -> UpCall -> Result Answer)
    (fuel : nat) (body : Body) :
  exists (seen : list JsValue) (final : Chunk),
    serve env upstream fuel "openaiAnalyse" body
    = (Val tt,
       {| res := sse_response 200 openaiAnalyse_headers
                   (delta_frames delta_envelope chat_delta seen ++ [final]) 1;
          trace := [Up (ChatCompletionsCreate (field body "model") (field body "messages"))] |})
    /\ (final = DONE \/ final = error_frame "Errore durante lo streaming AI.").
Proof.
  unfold serve, api_service, dispatch. cbn [String.eqb Ascii.eqb Bool.eqb].
  unfold openaiAnalyse.
  destruct (upstream 0 (ChatCompletionsCreate (field body "model") (field body "messages")))
    as [stream|e] eqn:Hup.
  - set (w0 := {| res := sse_response 200 openaiAnalyse_headers [] 0;
                  trace := [Up (ChatCompletionsCreate (field body "model")
                                  (field body "messages"))] |}).
    assert (Hw0 : streaming w0) by (now split).
    destruct (for_await_any (stream_items stream) "choices" delta_envelope
                (fun c => get (get (at_ c 0) "delta") "content") Hw0)
      as (seen & o & Hrun & Ho).
    exists seen. destruct o as [[]|e|]; [| |contradiction].
    + exists DONE. split; [|now left].
      erewrite run_catch_val; [reflexivity|]. do 5 step.
      erewrite run_catch_val; [reflexivity|].
      step_by ltac:(apply run_await; exact Hup).
      step_by ltac:(exact Hrun). step. reflexivity.
    + exists (error_frame "Errore durante lo streaming AI."). split; [|now right].
      erewrite run_catch_val; [reflexivity|]. do 5 step.
      erewrite run_catch_throw.
      2:{ step_by ltac:(apply run_await; exact Hup).
          step_by ltac:(exact Hrun). reflexivity. }
      step. reflexivity.
  - exists [], (error_frame "Errore durante lo streaming AI."). split; [|now right].
    erewrite run_catch_val; [reflexivity|]. do 5 step.
    erewrite run_catch_throw.
    2:{ step_by ltac:(apply run_await_rejected; exact Hup). reflexivity. }
    step. reflexivity.
Qed.



(** X8. openaiSimulateur has no catch block of its own: either the stream
    ends and the frames are delta frames, the usage frame and the
    sentinel, with the sink closed once, or something fails after the
    headers, and then only delta frames were written, no error frame
    follows, the sink is left open and the exception leaves the router. *)
Theorem openaiSimulateur_closes_only_on_success
    (env : string -> option string) (upstream : nat -> UpCall -> Result Answer)
    (fuel : nat) (body : Body) :
  let call := ChatCompletionsCreate (field body "model") (field body "messages") in
  exists seen : list JsValue,
    (exists stream,
       upstream 0 call = Ok stream /\
       serve env upstream fuel "openaiSimulateur" body
       = (Val tt,
          {| res := sse_response 200 sse_headers
                      (delta_frames choices_envelope chat_delta seen
                       ++ [usage_frame stream; DONE]) 1;
             trace := [Up call] |}))
    \/ (exists code,
          serve env upstream fuel "openaiSimulateur" body
          = (Throw ERR_HTTP_HEADERS_SENT,
             {| res := sse_response code sse_headers
                         (delta_frames choices_envelope chat_delta seen) 0;
                trace := [Up call] |})).
Proof.
  intros call. unfold call.
  unfold serve, api_service, dispatch. cbn [String.eqb Ascii.eqb Bool.eqb].
  unfold openaiSimulateur.
  destruct (upstream 0 (ChatCompletionsCreate (field body "model") (field body "messages")))
    as [stream|e] eqn:Hup.
  - set (w0 := {| res := sse_response 200 sse_headers [] 0;
                  trace := [Up (ChatCompletionsCreate (field body "model")
                                  (field body "messages"))] |}).
    assert (Hw0 : streaming w0) by (now split).
    destruct (for_await_any (stream_items stream) "choices" choices_envelope
                (fun c => get (get (at_ c 0) "delta") "content") Hw0)
      as (seen & o & Hrun & Ho).
    exists seen. destruct o as [[]|e|]; [| |contradiction].
    + left. exists stream. split; [reflexivity|].
      erewrite run_catch_val.
      2:{ do 3 step. step_by ltac:(apply run_await; exact Hup).
          step_by ltac:(exact Hrun). do 2 step. reflexivity. }
      unfold w0, sse_response, usage_frame.
      cbn [res trace statusCode headers headersSent written ended app].
      now rewrite <- app_assoc.
    + right. exists (status_or_500 e).
      erewrite run_catch_throw.
      2:{ do 3 step. step_by ltac:(apply run_await; exact Hup).
          step_by ltac:(exact Hrun). reflexivity. }
      reflexivity.
  - exists []. right. exists (status_or_500 e).
    erewrite run_catch_throw.
    2:{ do 3 step. step_by ltac:(apply run_await_rejected; exact Hup). reflexivity. }
    reflexivity.
Qed.

(** ** The poll loop on a run that never reaches a terminal status *)

Lemma poll_waits (upstream : nat -> UpCall -> Result Answer) (threadId runId : JsValue)
    (n : nat) :
  forall (w : World),
  (forall k, k < n ->
     exists a, upstream (length (trace w) + 2 * k + 1) (ThreadsRunsRetrieve threadId runId) = Ok a
               /\ nullish (as_data a) = false
               /\ terminal (get (as_data a) "status") = false) ->
  poll upstream n threadId runId w
  = (Pending, {| res := res w; trace := trace w ++ poll_rounds threadId runId n |}).
Proof.
  induction n as [|n IH]; intros w Hbefore; cbn [poll poll_rounds].
  - unfold pending. now rewrite world_eta.
  - destruct (Hbefore 0) as (a & Ha & Hao & Hat); [lia|].
    step.
    step_by ltac:(apply run_await; cbn [trace]; rewrite length_app; simpl;
                  rewrite Nat.add_0_r in Ha; exact Ha).
    unfold member. rewrite Hao. step.
    unfold terminal in Hat.
    destruct (is_string _ "completed"), (is_string _ "failed"); try discriminate.
    cbn [negb andb]. rewrite IH.
    + cbn [res trace]. now rewrite <- !app_assoc.
    + intros k Hk. destruct (Hbefore (S k)) as (b & Hb & Hbo & Hbt); [lia|].
      exists b. repeat split; try assumption.
      cbn [trace]. rewrite !length_app. simpl length.
      replace (length (trace w) + 1 + 1 + 2 * k + 1)
        with (length (trace w) + 2 * S k + 1) by lia.
      exact Hb.
Qed.

(** X9. The poll loop of assistantOpenaiAnalyse has no round limit and
    stops on "completed" and "failed" only: when the run keeps any other
    status (such as "cancelled" or "expired"), the handler is still
    waiting after every number of rounds and has sent nothing. *)
Theorem assistantOpenaiAnalyse_never_gives_up
    (env : string -> option string) (upstream : nat -> UpCall -> Result Answer)
    (body : Body) (thread run : Answer) :
  let threadId := get (as_data thread) "id" in
  let runId := get (as_data run) "id" in
  upstream 0 (ThreadsCreate (field body "messages")) = Ok thread ->
  nullish (as_data thread) = false ->
  upstream 1 (ThreadsRunsCreate threadId (process_env env "OPENAI_ASSISTANTID")) = Ok run ->
  nullish (as_data run) = false ->
  (forall k,
     exists a, upstream (2 + 2 * k + 1) (ThreadsRunsRetrieve threadId runId) = Ok a
               /\ nullish (as_data a) = false
               /\ terminal (get (as_data a) "status") = false) ->
  forall rounds,
    serve env upstream rounds "assistantOpenaiAnalyse" body
    = (Pending,
       {| res := fresh_response;
          trace := ([Up (ThreadsCreate (field body "messages"));
                     Up (ThreadsRunsCreate threadId (process_env env "OPENAI_ASSISTANTID"))]
                    ++ poll_rounds threadId runId rounds)%list |}).
Proof.
  intros threadId runId Hthread Htobj Hrun Hrobj Hstatus rounds.
  unfold serve, api_service, dispatch. cbn [String.eqb Ascii.eqb Bool.eqb].
  unfold assistantOpenaiAnalyse, try_catch.
  step_by ltac:(apply run_await; exact Hthread).
  unfold member at 1. rewrite Htobj. step.
  step_by ltac:(apply run_await; exact Hrun).
  unfold member at 1. rewrite Hrobj. step.
  unfold bind. rewrite poll_waits.
  - reflexivity.
  - intros k _. apply Hstatus.
Qed.

Lemma assistantOpenaiAnalyse_never_gives_up_witness :
  serve openai_env (assistant_upstream "cancelled") 40 "assistantOpenaiAnalyse" chat_request
  = (Pending,
     {| res := fresh_response;
        trace := ([Up (ThreadsCreate (field chat_request "messages"));
                   Up (ThreadsRunsCreate (JStr "thread_1")
                         (process_env openai_env "OPENAI_ASSISTANTID"))]
                  ++ poll_rounds (JStr "thread_1") (JStr "run_1") 40)%list |}).
Proof.
  apply (@assistantOpenaiAnalyse_never_gives_up openai_env (assistant_upstream "cancelled")
           chat_request (Data (obj1 "id" (JStr "thread_1"))) (Data (run_status "queued"))
           eq_refl eq_refl eq_refl eq_refl).
  intros k. eexists. split; [reflexivity|]. split; [reflexivity|].
  cbn [as_data]. destruct (Nat.ltb _ _); reflexivity.
Defined.

(** ** The raw relay *)

Lemma relay_chunks (chunks : list JsValue) :
  forall w, ended (res w) = 0 ->
  exists w',
    for_each chunks (fun chunk => write (Raw chunk)) w = (Val tt, w')
    /\ written (res w') = (written (res w) ++ map Raw chunks)%list
    /\ ended (res w') = 0
    /\ statusCode (res w') = statusCode (res w)
    /\ headers (res w') = headers (res w)
    /\ trace w' = trace w.
Proof.
  induction chunks as [|c chunks IH]; intros w He.
  - exists w. cbn [for_each map]. rewrite app_nil_r. now repeat split.
  - cbn [for_each].
    destruct (IH (wrote w [Raw c])) as (w' & Hrun & Hw & He' & Hc & Hh & Ht); [exact He|].
    exists w'. erewrite run_bind_val by (now apply run_write).
    split; [exact Hrun|]. rewrite Hw. cbn [wrote res written map].
    rewrite <- app_assoc. now repeat split.
Qed.

(** X10. azureOpenaiSimulateur passes the chunks of the upstream body on
    as they are, in their order and with nothing added, under the two
    event-stream headers and status 200; it closes the sink when the
    upstream body ends, and leaves it open when that body fails. *)
Theorem azureOpenaiSimulateur_relays_verbatim
    (env : string -> option string) (upstream : nat -> UpCall -> Result Answer)
    (fuel : nat) (body : Body) (props : JsValue) (chunks : list JsValue)
    (ending : option JsError) :
  (forall call, upstream 0 call = Ok (Stream props chunks ending)) ->
  let r := serve env upstream fuel "azureOpenaiSimulateur" body in
  fst r = Val tt
  /\ written (res (snd r)) = map Raw chunks
  /\ ended (res (snd r)) = match ending with Some _ => 0 | None => 1 end
  /\ statusCode (res (snd r)) = 200%Z
  /\ headers (res (snd r)) = sse_headers
  /\ length (calls (snd r)) = 1.
Proof.
  intros Hup r. subst r.
  unfold serve, api_service, dispatch. cbn [String.eqb Ascii.eqb Bool.eqb].
  unfold azureOpenaiSimulateur.
  destruct (@relay_chunks chunks
              {| res := {| statusCode := 200; headers := sse_headers; headersSent := false;
                           written := []; ended := 0 |};
                 trace := [Up (AxiosPost
                   (ToString (process_env env "AZURE_OPENAI_ENDPOINT_SIMULATEUR")
                    ++ "/openai/deployments/"
                    ++ ToString (process_env env "AZURE_OPENAI_DEPLOYMENT_SIMULATEUR")
                    ++ "/chat/completions?api-version="
                    ++ ToString (process_env env "AZURE_OPENAI_API_VERSION"))
                   (JObj body)
                   [("api-key", process_env env "AZURE_OPENAI_KEY_SIMULATEUR");
                    ("Content-Type", JStr "application/json")] "stream")] |} eq_refl)
    as (w' & Hrun & Hw & He & Hc & Hh & Ht).
  cbn [res trace statusCode headers written ended app] in Hw, Hc, Hh, Ht.
  destruct ending as [e|].
  - erewrite run_catch_val.
    2:{ step_by ltac:(apply run_await; apply Hup). do 2 step.
        cbn [readable relay_raw].
        step_by ltac:(exact Hrun). reflexivity. }
    cbn [fst snd]. unfold calls. rewrite Hw, He, Hc, Hh, Ht. now repeat split.
  - erewrite run_catch_val.
    2:{ step_by ltac:(apply run_await; apply Hup). do 2 step.
        cbn [readable relay_raw].
        step_by ltac:(exact Hrun). reflexivity. }
    cbn [fst snd res trace statusCode headers written ended]. unfold calls.
    cbn [trace]. rewrite Hw, He, Hc, Hh, Ht. now repeat split.
Qed.

Lemma azureOpenaiSimulateur_relays_verbatim_witness :
  let r := serve no_env
             (always (Stream JUndefined [JBuffer "data: {"; JBuffer "}"] (Some upstream_failure)))
             0 "azureOpenaiSimulateur" chat_request in
  fst r = Val tt
  /\ written (res (snd r)) = map Raw [JBuffer "data: {"; JBuffer "}"]
  /\ ended (res (snd r)) = 0
  /\ statusCode (res (snd r)) = 200%Z
  /\ headers (res (snd r)) = sse_headers
  /\ length (calls (snd r)) = 1.
Proof.
  apply (@azureOpenaiSimulateur_relays_verbatim no_env
           (always (Stream JUndefined [JBuffer "data: {"; JBuffer "}"] (Some upstream_failure)))
           0 chat_request JUndefined [JBuffer "data: {"; JBuffer "}"] (Some upstream_failure)).
  intros call. reflexivity.
Defined.

(** ** The catch block of the router *)



(** ** vertexChat outside the streaming mode *)







(** ** The two routes beside the router *)

(** X14. /api/transcribe answers every request exactly once and makes at
    most one upstream call; without the API key or without an uploaded
    file it makes none. *)
Theorem transcribe_answers_once
    (env : string -> option string) (upstream : nat -> UpCall -> Result Answer)
    (boundary : string) (file : option UploadedFile) :
  let r := transcribe env upstream boundary file start in
  answered_once r
  /\ (exists cs, trace (snd r) = map Up cs /\ (length cs <= 1)%nat)
  /\ (truthy (process_env env "OPENAI_API_KEY_SIMULATEUR") = false \/ file = None ->
      trace (snd r) = []).
Proof.
  intros r. subst r. repeat split.
  - assert (H : answers (transcribe env upstream boundary file))
      by (unfold transcribe; answer).
    destruct (H start unsent_start) as (Hv & He & Hl). exact Hv.
  - assert (H : answers (transcribe env upstream boundary file))
      by (unfold transcribe; answer).
    apply (H start unsent_start).
  - assert (H : answers (transcribe env upstream boundary file))
      by (unfold transcribe; answer).
    apply (H start unsent_start).
  - assert (H : calls_at_most (transcribe env upstream boundary file) 1)
      by (unfold transcribe; one_call).
    exact (H start).
  - intros Hguard. unfold transcribe.
    destruct (truthy (process_env env "OPENAI_API_KEY_SIMULATEUR")); cbn [negb].
    + destruct Hguard as [Hkey | ->]; [discriminate|].
      rewrite quiet_bind; [reflexivity | quiet | quiet].
    + rewrite quiet_bind; [reflexivity | quiet | quiet].
Qed.

(** X15. When the transcription call is rejected, /api/transcribe
    answers with the status of the upstream response (500 without one)
    and passes on, as [details], the upstream body, or the message of
    the error when there is no body. *)
Theorem transcribe_failure_is_passed_on
    (env : string -> option string) (upstream : nat -> UpCall -> Result Answer)
    (boundary : string) (f : UploadedFile) (e : JsError) :
  truthy (process_env env "OPENAI_API_KEY_SIMULATEUR") = true ->
  (forall call, upstream 0 call = Err e) ->
  res (snd (transcribe env upstream boundary (Some f) start))
  = json_response (status_or_500 e)
      (JObj [("error", JStr "Transcription failed");
             ("details", js_or (response_data e) (JStr (e_message e)))]).
Proof.
  intros Hkey Hup. unfold transcribe. rewrite Hkey. cbn [negb].
  erewrite run_catch_throw.
  2:{ step_by ltac:(apply run_await_rejected; apply Hup). reflexivity. }
  step. reflexivity.
Qed.

Lemma transcribe_failure_is_passed_on_witness :
  truthy (process_env openai_env "OPENAI_API_KEY_SIMULATEUR") = true /\
  res (snd (transcribe openai_env
              (rejecting (http_error 413 [] (obj1 "error" (JStr "file too large"))))
              "x" (Some audio_file) start))
  = json_response 413
      (JObj [("error", JStr "Transcription failed");
             ("details", obj1 "error" (JStr "file too large"))]).
Proof.
  split; [reflexivity|].
  apply (@transcribe_failure_is_passed_on openai_env
           (rejecting (http_error 413 [] (obj1 "error" (JStr "file too large"))))
           "x" audio_file (http_error 413 [] (obj1 "error" (JStr "file too large")))
           eq_refl).
  intros call. reflexivity.
Defined.


(** ** escapeXml *)

Lemma entity_cases (c : ascii) :
  (c = "&"%char /\ entity c = "&amp;")
  \/ (c = "<"%char /\ entity c = "&lt;")
  \/ (c = ">"%char /\ entity c = "&gt;")
  \/ (c = "034"%char /\ entity c = "&quot;")
  \/ (c = "039"%char /\ entity c = "&apos;")
  \/ (reserved c = false /\ entity c = String c EmptyString).
Proof.
  unfold entity, reserved, markup_delimiter.
  destruct (Ascii.eqb_spec c "&"); [tauto|].
  destruct (Ascii.eqb_spec c "<"); [tauto|].
  destruct (Ascii.eqb_spec c ">"); [tauto|].
  destruct (Ascii.eqb_spec c "034"); [tauto|].
  destruct (Ascii.eqb_spec c "039"); [tauto|].
  repeat right. split; reflexivity.
Qed.

Lemma plain_not_ampersand (c : ascii) : reserved c = false -> c <> "&"%char.
Proof. intros H ->. discriminate H. Qed.

Lemma escape_single_pass_injective (a : string) :
  forall b, escape_single_pass a = escape_single_pass b -> a = b.
Proof.
  induction a as [|c a IH]; intros [|d b]; cbn [escape_single_pass].
  - reflexivity.
  - destruct (entity_cases d) as [[_ ->]|[[_ ->]|[[_ ->]|[[_ ->]|[[_ ->]|[_ ->]]]]]];
      discriminate.
  - destruct (entity_cases c) as [[_ ->]|[[_ ->]|[[_ ->]|[[_ ->]|[[_ ->]|[_ ->]]]]]];
      discriminate.
  - destruct (entity_cases c) as [[-> ->]|[[-> ->]|[[-> ->]|[[-> ->]|[[-> ->]|[Hc ->]]]]]];
      destruct (entity_cases d) as [[-> ->]|[[-> ->]|[[-> ->]|[[-> ->]|[[-> ->]|[Hd ->]]]]]];
      cbn [append]; intros H;
      try discriminate H;
      try (injection H as H; f_equal; now apply IH);
      try (injection H as H1 H; exfalso; apply (plain_not_ampersand Hd); now rewrite H1);
      try (injection H as H1 H; exfalso; apply (plain_not_ampersand Hc); now rewrite H1).
    injection H as -> H. f_equal. now apply IH.
Qed.

(** X17. [escapeXml] loses nothing: two texts with the same escaped form
    are the same text. *)
Theorem escapeXml_injective (a b : string) : escapeXml a = escapeXml b -> a = b.
Proof. rewrite !escapeXml_single_pass. apply escape_single_pass_injective. Qed.

Lemma escapeXml_injective_witness :
  escapeXml "a<b" = escapeXml ("a" ++ "<b") /\ "a<b" = "a" ++ "<b".
Proof. split; [reflexivity|]. apply (@escapeXml_injective "a<b" ("a" ++ "<b") eq_refl). Defined.

(** X18. A text that holds none of the five reserved characters is left
    as it is. *)
Theorem escapeXml_plain_text (s : string) :
  all_chars (fun c => negb (reserved c)) s = true -> escapeXml s = s.
Proof.
  rewrite escapeXml_single_pass.
  induction s as [|c s IH]; cbn [all_chars escape_single_pass]; [reflexivity|].
  intros H. apply andb_prop in H. destruct H as [Hc Hs].
  apply negb_true_iff in Hc.
  destruct (entity_cases c) as [[-> _]|[[-> _]|[[-> _]|[[-> _]|[[-> _]|[_ ->]]]]]];
    try discriminate Hc.
  cbn [append]. now rewrite IH.
Qed.

Lemma escapeXml_plain_text_witness : escapeXml "Bonjour tout le monde" = "Bonjour tout le monde".
Proof. apply (@escapeXml_plain_text "Bonjour tout le monde" eq_refl). Defined.

(** X19. Escaping works piece by piece: the escaped form of two texts put
    together is their escaped forms put together. *)
Theorem escapeXml_app (a b : string) : escapeXml (a ++ b) = escapeXml a ++ escapeXml b.
Proof.
  rewrite !escapeXml_single_pass.
  induction a as [|c a IH]; cbn [append escape_single_pass]; [reflexivity|].
  now rewrite IH, append_assoc.
Qed.

(** ** buildSSML *)

(** X20. [buildSSML] returns a document exactly when both [text] and
    [voice] are strings; any other value makes it throw, since it calls
    [replace] on the one and [substring] on the other. *)
Theorem buildSSML_returns_iff_strings (p : SSMLParams) :
  (exists document, buildSSML p = Ok document)
  <-> (exists s v, text p = JStr s /\ voice p = JStr v).
Proof.
  split.
  - intros [document H]. unfold buildSSML in H.
    destruct (voice p) as [| | | | |v| | | |]; try discriminate H.
    destruct (text p) as [| | | | |s| | | |]; try discriminate H.
    now exists s, v.
  - intros (s & v & Ht & Hv). eexists. now apply buildSSML_document with (s := s) (v := v).
Qed.

(** X21. Without a [style] the [styleDegree] is not used: the document is
    the same for every [styleDegree]. *)
Theorem styleDegree_needs_style (p : SSMLParams) (d : JsValue) :
  truthy (style p) = false -> buildSSML (with_styleDegree p d) = buildSSML p.
Proof.
  intros Hstyle. unfold buildSSML, ssml_head, ssml_tail, expressOpen, expressClose,
    openProsody, closeProsody, prosodyAttrs, with_styleDegree.
  cbn [text voice style styleDegree rate pitch volume leadingSilenceMs trailingSilenceMs].
  now rewrite Hstyle.
Qed.

Lemma styleDegree_needs_style_witness :
  truthy (style (plain_params "Bonjour" "fr-FR-DeniseNeural")) = false /\
  buildSSML (with_styleDegree (plain_params "Bonjour" "fr-FR-DeniseNeural") (JNum 2))
  = buildSSML (plain_params "Bonjour" "fr-FR-DeniseNeural").
Proof.
  split; [reflexivity|].
  apply (@styleDegree_needs_style (plain_params "Bonjour" "fr-FR-DeniseNeural") (JNum 2)
           eq_refl).
Defined.

(** X22. The prosody element is opened and closed together, and exactly
    when one of [rate], [pitch] and [volume] is given: the wrappers of
    the text are balanced. *)
Theorem prosody_wrapper_balanced (p : SSMLParams) :
  if truthy (rate p) || truthy (pitch p) || truthy (volume p)
  then exists attrs, attrs <> "" /\ openProsody p = "<prosody " ++ attrs ++ ">"
                     /\ closeProsody p = "</prosody>"
  else openProsody p = "" /\ closeProsody p = "".
Proof.
  assert (Hany : truthy (rate p) || truthy (pitch p) || truthy (volume p) = true ->
                 (prosodyAttrs p =? "") = false).
  { unfold prosodyAttrs, filter_join.
    destruct (truthy (rate p)), (truthy (pitch p)), (truthy (volume p));
      cbn [orb]; intros H; try discriminate H; reflexivity. }
  destruct (truthy (rate p) || truthy (pitch p) || truthy (volume p)) eqn:Hsome.
  - specialize (Hany eq_refl). exists (prosodyAttrs p).
    unfold openProsody, closeProsody. rewrite Hany. repeat split.
    intros Hempty. rewrite Hempty in Hany. discriminate Hany.
  - apply orb_false_elim in Hsome. destruct Hsome as [Hsome Hv].
    apply orb_false_elim in Hsome. destruct Hsome as [Hr Hp].
    unfold openProsody, closeProsody, prosodyAttrs. rewrite Hr, Hp, Hv.
    split; reflexivity.
Qed.

(** ** The voice of the OpenAI speech branches *)

Lemma includes_In (l : list string) (s : string) : includes l s = true -> In s l.
Proof.
  unfold includes. intros H. apply existsb_exists in H. destruct H as (x & Hx & Heq).
  apply String.eqb_eq in Heq. now subst.
Qed.

Lemma allowed_voice_allowed (selectedVoice : JsValue) (v : string) :
  allowed_voice selectedVoice = Ok v -> In v allowedVoices.
Proof.
  unfold allowed_voice, js_or.
  destruct (truthy selectedVoice).
  - destruct (trim_of selectedVoice) as [t|e]; [|discriminate].
    destruct (includes allowedVoices (toLowerCase t)) eqn:Hin.
    + intros [= <-]. now apply includes_In.
    + intros [= <-]. simpl. tauto.
  - cbn [trim_of]. destruct (includes allowedVoices (toLowerCase (trim ""))) eqn:Hin.
    + discriminate Hin.
    + intros [= <-]. simpl. tauto.
Qed.

(** X23. The two OpenAI speech branches never pass a voice of the
    client's choosing upstream: every call they make carries one of the
    six voices of the allow-list, the text of the request, and nothing
    else taken from the body. *)
Theorem speech_voice_is_allowed
    (env : string -> option string) (upstream : nat -> UpCall -> Result Answer)
    (fuel : nat) (service : string) (body : Body) (call : UpCall) :
  In service speech_services ->
  In call (calls (snd (serve env upstream fuel service body))) ->
  exists v,
    In v allowedVoices
    /\ (call = openai_tts_call (process_env env "OPENAI_API_KEY_SIMULATEUR")
                 (field body "text") v
        \/ call = AudioSpeechCreate "tts-1" (field body "text") v
                    "Speak in a cheerful and positive tone.").
Proof.
  intros Hin. cbn [speech_services In] in Hin. destruct Hin as [<-|[<-|[]]];
    unfold calls, serve, api_service; rewrite trace_try_catch_quiet by quiet;
    unfold dispatch; cbn [String.eqb Ascii.eqb Bool.eqb].
  - unfold openai_tts.
    destruct (truthy (process_env env "OPENAI_API_KEY_SIMULATEUR")); cbn [negb].
    2:{ rewrite quiet_bind; [intros [] | quiet | quiet]. }
    destruct (truthy (field body "text")); cbn [negb].
    2:{ rewrite quiet_bind; [intros [] | quiet | quiet]. }
    destruct (allowed_voice (field body "selectedVoice")) as [v|e] eqn:Hv; cbn [lift].
    2:{ intros []. }
    change (bind (ret v) ?k) with (k v). cbv beta.
    rewrite trace_await_quiet by quiet. cbn [start trace app flat_map].
    intros [<-|[]]. exists v. split; [now apply allowed_voice_allowed with (1 := Hv)|].
    left. reflexivity.
  - unfold streaming_openai_tts.
    destruct (truthy (field body "text")); cbn [negb].
    2:{ rewrite quiet_bind; [intros [] | quiet | quiet]. }
    destruct (allowed_voice (field body "selectedVoice")) as [v|e] eqn:Hv; cbn [lift].
    2:{ intros []. }
    change (bind (ret v) ?k) with (k v). cbv beta.
    rewrite trace_await_quiet by quiet. cbn [start trace app flat_map].
    intros [<-|[]]. exists v. split; [now apply allowed_voice_allowed with (1 := Hv)|].
    right. reflexivity.
Qed.

Lemma speech_voice_is_allowed_witness :
  In "openai-tts" speech_services /\
  In (openai_tts_call (JStr "sk-test") (JStr "Bonjour") "fable")
     (calls (snd (serve openai_env no_upstream 0 "openai-tts" bogus_request))) /\
  exists v,
    In v allowedVoices
    /\ (openai_tts_call (JStr "sk-test") (JStr "Bonjour") "fable"
        = openai_tts_call (process_env openai_env "OPENAI_API_KEY_SIMULATEUR")
            (field bogus_request "text") v
        \/ openai_tts_call (JStr "sk-test") (JStr "Bonjour") "fable"
           = AudioSpeechCreate "tts-1" (field bogus_request "text") v
               "Speak in a cheerful and positive tone.").
Proof.
  split; [left; reflexivity|]. split; [left; reflexivity|].
  apply (@speech_voice_is_allowed openai_env no_upstream 0 "openai-tts" bogus_request
           (openai_tts_call (JStr "sk-test") (JStr "Bonjour") "fable")).
  - left. reflexivity.
  - left. reflexivity.
Defined.

(** ** The status of an upstream failure *)




(** ** The database branches *)



(** ** The piped speech *)

(** X26. streaming-openai-tts pipes the upstream audio to the client as
    it is: the chunks in their order under [audio/mpeg] with chunked
    transfer, the sink closed when the upstream body ends and left open
    when it fails. *)
Theorem streaming_openai_tts_pipes
    (env : string -> option string) (upstream : nat -> UpCall -> Result Answer)
    (fuel : nat) (body : Body) (v : string) (props : JsValue) (chunks : list JsValue)
    (ending : option JsError) :
  truthy (field body "text") = true ->
  allowed_voice (field body "selectedVoice") = Ok v ->
  upstream 0 (AudioSpeechCreate "tts-1" (field body "text") v
                "Speak in a cheerful and positive tone.")
  = Ok (Stream props chunks ending) ->
  let r := serve env upstream fuel "streaming-openai-tts" body in
  fst r = Val tt
  /\ written (res (snd r)) = map Raw chunks
  /\ ended (res (snd r)) = match ending with Some _ => 0 | None => 1 end
  /\ statusCode (res (snd r)) = 200%Z
  /\ headers (res (snd r)) = [("Transfer-Encoding", "chunked"); ("Content-Type", "audio/mpeg")].
Proof.
  intros Htext Hvoice Hup r. subst r.
  unfold serve, api_service, dispatch. cbn [String.eqb Ascii.eqb Bool.eqb].
  unfold streaming_openai_tts. rewrite Htext, Hvoice. cbn [negb lift].
  destruct (@relay_chunks chunks
              {| res := {| statusCode := 200;
                           headers := [("Transfer-Encoding", "chunked");
                                       ("Content-Type", "audio/mpeg")];
                           headersSent := false; written := []; ended := 0 |};
                 trace := [Up (AudioSpeechCreate "tts-1" (field body "text") v
                                 "Speak in a cheerful and positive tone.")] |} eq_refl)
    as (w' & Hrun & Hw & He & Hc & Hh & Ht).
  cbn [res trace statusCode headers written ended app] in Hw, Hc, Hh, Ht.
  destruct ending as [e|].
  - erewrite run_catch_val.
    2:{ step. erewrite run_catch_val; [reflexivity|].
        step_by ltac:(apply run_await; exact Hup). do 2 step.
        cbn [readable relay_raw].
        step_by ltac:(exact Hrun). reflexivity. }
    cbn [fst snd]. rewrite Hw, He, Hc, Hh. now repeat split.
  - erewrite run_catch_val.
    2:{ step. erewrite run_catch_val; [reflexivity|].
        step_by ltac:(apply run_await; exact Hup). do 2 step.
        cbn [readable relay_raw].
        step_by ltac:(exact Hrun). reflexivity. }
    cbn [fst snd res trace statusCode headers written ended].
    rewrite Hw, He, Hc, Hh. now repeat split.
Qed.

Lemma streaming_openai_tts_pipes_witness :
  truthy (field bogus_request "text") = true /\
  allowed_voice (field bogus_request "selectedVoice") = Ok "fable" /\
  let r := serve no_env (always (Stream JUndefined [JBuffer "ID3"; JBuffer "xx"] None)) 0
             "streaming-openai-tts" bogus_request in
  fst r = Val tt
  /\ written (res (snd r)) = map Raw [JBuffer "ID3"; JBuffer "xx"]
  /\ ended (res (snd r)) = 1
  /\ statusCode (res (snd r)) = 200%Z
  /\ headers (res (snd r)) = [("Transfer-Encoding", "chunked"); ("Content-Type", "audio/mpeg")].
Proof.
  split; [reflexivity|]. split; [reflexivity|].
  apply (@streaming_openai_tts_pipes no_env
           (always (Stream JUndefined [JBuffer "ID3"; JBuffer "xx"] None)) 0
           bogus_request "fable" JUndefined [JBuffer "ID3"; JBuffer "xx"] None
           eq_refl eq_refl eq_refl).
Defined.
